(** * Health Assistant database viewer: [view_database.py]

    A shallow embedding of the read-only report tool and the proofs of
    the properties its specification states.

    Modelling conventions.
    - A Python [str] is a sequence of Unicode code points ([len] and
      slicing count code points), so [str] is [list N].  Literals of the
      source are written with [lit] (ASCII part) and explicit code points
      for the pictographs.
    - A SQL query is a function from the tables to the list of rows the
      cursor yields.  Where SQL leaves the order of rows open (no ORDER BY,
      rows equal under the ordering key, the representative of a group),
      the model fixes one order; the theorems are not about that choice.
    - [print(tabulate(rows, headers, tablefmt))] is the output event
      [Table]: the cells handed to the table formatter.  How the external
      formatter draws the table is outside this development.
    - [view_users], [view_appointments], [view_stats],
      [view_recent_activity] and [search_user] give the print statements
      a call of the function reaches on a database that has both tables,
      in order.  What a call does with them depends on what the name
      [tabulate] is bound to and on the file: that is [printing] and the
      [call_...] definitions of the interactive program.
    - [datetime.now()] is an input of [view_stats]. *)

From Stdlib Require Import Ascii String DecimalString.
From Stdlib Require Import List ZArith NArith Lia Bool.
From Stdlib Require Import Sorted Permutation RelationClasses.
Import ListNotations.

Set Implicit Arguments.
Local Open Scope list_scope.

(* ================================================================== *)
(** ** Python strings *)

Definition str := list N.

(** An ASCII literal of the source. *)
Definition lit (s : string) : str :=
  map N_of_ascii (list_ascii_of_string s).

(** The newline character of a literal. *)
Definition nl : str := [10%N].

Definition str_eq_dec : forall a b : str, {a = b} + {a <> b} :=
  list_eq_dec N.eq_dec.

(** [a == b] on strings; also SQL [=] on TEXT under the default BINARY
    collation. *)
Fixpoint str_eqb (a b : str) : bool :=
  match a, b with
  | [], [] => true
  | x :: a', y :: b' => N.eqb x y && str_eqb a' b'
  | _, _ => false
  end.

(** Ordering of TEXT values under BINARY collation: byte-wise on the
    UTF-8 encoding, which is the lexicographic order of code points, a
    proper prefix being smaller. *)
Fixpoint str_compare (a b : str) : comparison :=
  match a, b with
  | [], [] => Eq
  | [], _ :: _ => Lt
  | _ :: _, [] => Gt
  | x :: a', y :: b' =>
      match N.compare x y with
      | Eq => str_compare a' b'
      | c => c
      end
  end.

Definition str_leb (a b : str) : bool :=
  match str_compare a b with Gt => false | _ => true end.

(** [str(n)] for an integer. *)
Definition str_of_Z (z : Z) : str := lit (NilZero.string_of_int (Z.to_int z)).
Definition str_of_nat (n : nat) : str := str_of_Z (Z.of_nat n).

(** [c * n] for a one-character string. *)
Definition times (c : string) (n : nat) : str :=
  concat (repeat (lit c) n).

(** The characters [str.strip()] removes: Python's Unicode whitespace. *)
Definition is_space (c : N) : bool :=
  ((9 <=? c) && (c <=? 13) || (28 <=? c) && (c <=? 32)
   || (c =? 133) || (c =? 160) || (c =? 5760)
   || (8192 <=? c) && (c <=? 8202) || (c =? 8232) || (c =? 8233)
   || (c =? 8239) || (c =? 8287) || (c =? 12288))%N.

Fixpoint lstrip (s : str) : str :=
  match s with
  | c :: s' => if is_space c then lstrip s' else s
  | [] => []
  end.

Definition strip (s : str) : str := rev (lstrip (rev (lstrip s))).

(** [x or d] for a TEXT column that may be NULL: NULL and the empty
    string are both falsy. *)
Definition or_str (x : option str) (d : str) : str :=
  match x with
  | Some s => match s with [] => d | _ :: _ => s end
  | None => d
  end.

(* ================================================================== *)
(** ** The store *)

(** Modelled from the spec: the schema of the two tables.  They are created
    by the application that owns the store, which is not part of this tool;
    the columns are the ones the queries name, with the optionality the
    data model gives ([age] and [bio] may be NULL). *)
Record user := mkUser {
  u_id : Z;
  u_name : str;
  u_email : str;
  u_age : option Z;
  u_bio : option str;
  u_created_at : str
}.

Record appointment := mkAppt {
  a_id : Z;
  a_user_email : str;
  a_doctor : str;
  a_date : str;
  a_time : str;
  a_booked_at : str
}.

(** The content of the database file: both tables, rows in storage order. *)
Record store := mkStore {
  users : list user;
  appointments : list appointment
}.

(* ================================================================== *)
(** ** Output *)

Inductive tablefmt := Grid | FancyGrid | Simple.

(** A value placed in a table cell. *)
Inductive cell :=
| CInt (z : Z)
| CStr (s : str).

Inductive output :=
| Print (s : str)                       (* print(s) *)
| Prompt (s : str)                      (* the prompt of input(s) *)
| Table (fmt : tablefmt) (headers : list str) (rows : list (list cell)).
                                        (* print(tabulate(rows, ...)) *)

(* ================================================================== *)
(** ** SQL building blocks *)

Section OrderBy.

Variable A : Type.
(** [leb x y]: row [x] may come before row [y]. *)
Variable leb : A -> A -> bool.

Fixpoint insert_row (x : A) (l : list A) : list A :=
  match l with
  | [] => [x]
  | y :: l' => if leb x y then x :: l else y :: insert_row x l'
  end.

(** ORDER BY, as a stable sort: rows that the ordering does not
    separate keep the order they had. *)
Definition order_by (l : list A) : list A := fold_right insert_row [] l.

(** LIMIT n *)
Definition limit (n : nat) (l : list A) : list A := firstn n l.

(** cursor.fetchone() *)
Definition fetchone (l : list A) : option A := hd_error l.

End OrderBy.

(** GROUP BY on a TEXT column: the distinct keys, each with its rows. *)
Definition group_by (A : Type) (key : A -> str) (rows : list A)
  : list (str * list A) :=
  map (fun k => (k, filter (fun r => str_eqb (key r) k) rows))
      (nodup str_eq_dec (map key rows)).

(** [a.user_email = u.email], the ON condition of every join. *)
Definition owns (u : user) (a : appointment) : bool :=
  str_eqb (a_user_email a) (u_email u).

(** ORDER BY date, time (ascending). *)
Definition date_time_leb (x y : appointment) : bool :=
  match str_compare (a_date x) (a_date y) with
  | Lt => true
  | Eq => str_leb (a_time x) (a_time y)
  | Gt => false
  end.

(* ================================================================== *)
(** ** [view_users] *)

(** [u["age"] or "N/A"] *)
Definition age_cell (age : option Z) : cell :=
  match age with
  | Some z => if (z =? 0)%Z then CStr (lit "N/A") else CInt z
  | None => CStr (lit "N/A")
  end.

(** [(u["bio"][:30] + "...") if len(u["bio"] or "") > 30
     else u["bio"] or "N/A"] *)
Definition bio_cell (bio : option str) : cell :=
  (* in the first branch the bio is longer than 30, so it is not NULL and
     [u["bio"]] is [u["bio"] or ""] *)
  if 30 <? length (or_str bio [])
  then CStr (firstn 30 (or_str bio []) ++ lit "...")
  else CStr (or_str bio (lit "N/A")).

Definition users_headers : list str :=
  [lit "ID"; lit "Name"; lit "Email"; lit "Age"; lit "Bio"; lit "Created At"].

Definition user_row (u : user) : list cell :=
  [CInt (u_id u); CStr (u_name u); CStr (u_email u); age_cell (u_age u);
   bio_cell (u_bio u); CStr (u_created_at u)].

Definition no_users_notice : output :=
  Print (10060%N :: lit " No users found").

Definition view_users (s : store) : list output :=
  (* SELECT id, name, email, age, bio, created_at FROM users *)
  let us := users s in
  match us with
  | _ :: _ =>
      [Table Grid users_headers (map user_row us);
       Print (nl ++ 128202%N :: lit " Total Users: " ++ str_of_nat (length us))]
  | [] => [no_users_notice]
  end.

(* ================================================================== *)
(** ** [view_appointments] *)

(** FROM appointments a LEFT JOIN users u ON a.user_email = u.email:
    each appointment with the name of every user it matches, or with NULL
    when it matches none. *)
Definition left_join_users (us : list user) (a : appointment)
  : list (appointment * option str) :=
  match filter (fun u => owns u a) us with
  | [] => [(a, None)]
  | ms => map (fun u => (a, Some (u_name u))) ms
  end.

Definition appointments_query (s : store) : list (appointment * option str) :=
  order_by (fun x y => date_time_leb (fst x) (fst y))
           (flat_map (left_join_users (users s)) (appointments s)).

Definition appointments_headers : list str :=
  [lit "ID"; lit "User"; lit "Email"; lit "Doctor"; lit "Date"; lit "Time";
   lit "Booked At"].

Definition appointment_row (r : appointment * option str) : list cell :=
  let (a, user_name) := r in
  [CInt (a_id a); CStr (or_str user_name (lit "Unknown"));
   CStr (a_user_email a); CStr (a_doctor a); CStr (a_date a);
   CStr (a_time a); CStr (a_booked_at a)].

Definition appointment_rows (s : store) : list (list cell) :=
  map appointment_row (appointments_query s).

Definition view_appointments (s : store) : list output :=
  let appts := appointments_query s in
  match appts with
  | _ :: _ =>
      [Table Grid appointments_headers (map appointment_row appts);
       Print (nl ++ 128197%N :: lit " Total Appointments: "
                 ++ str_of_nat (length appts))]
  | [] => [Print (10060%N :: lit " No appointments found")]
  end.

(* ================================================================== *)
(** ** [view_stats] *)

(** FROM users u LEFT JOIN appointments a ON u.email = a.user_email *)
Definition left_join_appointments (appts : list appointment) (u : user)
  : list (user * option appointment) :=
  match filter (owns u) appts with
  | [] => [(u, None)]
  | ms => map (fun a => (u, Some a)) ms
  end.

(** COUNT(a.id): the rows of the group whose [a.id] is not NULL. *)
Definition count_id (g : list (user * option appointment)) : nat :=
  length (filter (fun r => match snd r with Some _ => true | None => false end) g).

(** SELECT u.name, u.email, COUNT(a.id) ... GROUP BY u.email.  The name is
    the one of a row of the group. *)
Definition activity_rows (s : store) : list (str * str * nat) :=
  map (fun g => (match snd g with r :: _ => u_name (fst r) | [] => [] end,
                 fst g, count_id (snd g)))
      (group_by (fun r => u_email (fst r))
                (flat_map (left_join_appointments (appointments s)) (users s))).

(** ... ORDER BY appt_count DESC LIMIT 1; fetchone() *)
Definition most_active (s : store) : option (str * str * nat) :=
  fetchone (limit 1 (order_by (fun x y => snd y <=? snd x) (activity_rows s))).

(** SELECT doctor, COUNT( * ) FROM appointments GROUP BY doctor *)
Definition doctor_rows (s : store) : list (str * nat) :=
  map (fun g => (fst g, length (snd g))) (group_by a_doctor (appointments s)).

Definition popular_doctor (s : store) : option (str * nat) :=
  fetchone (limit 1 (order_by (fun x y => snd y <=? snd x) (doctor_rows s))).

Definition user_count (s : store) : nat := length (users s).
Definition appt_count (s : store) : nat := length (appointments s).
(** SELECT COUNT( * ) FROM appointments WHERE date = ? *)
Definition today_count (s : store) (today : str) : nat :=
  length (filter (fun a => str_eqb (a_date a) today) (appointments s)).

Definition most_active_cell (r : option (str * str * nat)) : cell :=
  match r with
  | Some (name, _, n) =>
      if 0 <? n
      then CStr (name ++ lit " (" ++ str_of_nat n ++ lit " appointments)")
      else CStr (lit "N/A")
  | None => CStr (lit "N/A")
  end.

Definition popular_doctor_cell (r : option (str * nat)) : cell :=
  match r with
  | Some (doctor, n) =>
      CStr (doctor ++ lit " (" ++ str_of_nat n ++ lit " bookings)")
  | None => CStr (lit "N/A")
  end.

Definition stats_rows (s : store) (today : str) : list (list cell) :=
  [[CStr (128101%N :: lit " Total Users"); CInt (Z.of_nat (user_count s))];
   [CStr (128197%N :: lit " Total Appointments"); CInt (Z.of_nat (appt_count s))];
   [CStr (128336%N :: lit " Today's Appointments");
    CInt (Z.of_nat (today_count s today))];
   [CStr (11088%N :: lit " Most Active User"); most_active_cell (most_active s)];
   [CStr ([128104; 8205; 9877; 65039]%N ++ lit " Most Booked Doctor");
    popular_doctor_cell (popular_doctor s)]].

(** The print statement of [view_stats] (line 117), which the function
    reaches after its five queries. *)
Definition view_stats (s : store) (today : str) : list output :=
  [Table FancyGrid [lit "Metric"; lit "Value"] (stats_rows s today)].

(* ================================================================== *)
(** ** [view_recent_activity] *)

(** SELECT name, email, created_at FROM users
    ORDER BY created_at DESC LIMIT 5 *)
Definition recent_users (s : store) : list user :=
  limit 5 (order_by (fun x y => str_leb (u_created_at y) (u_created_at x))
                    (users s)).

(** FROM appointments a JOIN users u ON a.user_email = u.email: the pairs
    of an appointment and a user that match. *)
Definition join_users (us : list user) (a : appointment)
  : list (user * appointment) :=
  map (fun u => (u, a)) (filter (fun u => owns u a) us).

(** ... ORDER BY a.booked_at DESC LIMIT 5 *)
Definition recent_appts (s : store) : list (user * appointment) :=
  limit 5 (order_by (fun x y => str_leb (a_booked_at (snd y))
                                        (a_booked_at (snd x)))
                    (flat_map (join_users (users s)) (appointments s))).

Definition recent_user_row (u : user) : list cell :=
  [CStr (u_name u); CStr (u_email u); CStr (u_created_at u)].

Definition recent_appt_row (r : user * appointment) : list cell :=
  let (u, a) := r in
  [CStr (u_name u); CStr (a_doctor a); CStr (a_date a); CStr (a_time a);
   CStr (a_booked_at a)].

(** The part of the report under the "Recent Appointments" heading. *)
Definition recent_appts_section (s : store) : output :=
  let rs := recent_appts s in
  match rs with
  | _ :: _ =>
      Table Simple [lit "User"; lit "Doctor"; lit "Date"; lit "Time";
                    lit "Booked"] (map recent_appt_row rs)
  | [] => Print (lit "  No appointments yet")
  end.

Definition recent_users_section (s : store) : output :=
  let rs := recent_users s in
  match rs with
  | _ :: _ =>
      Table Simple [lit "Name"; lit "Email"; lit "Joined"]
            (map recent_user_row rs)
  | [] => Print (lit "  No users yet")
  end.

Definition view_recent_activity (s : store) : list output :=
  [Print (nl ++ 127381%N :: lit " Recent Signups:");
   recent_users_section s;
   Print (nl ++ 128197%N :: lit " Recent Appointments:");
   recent_appts_section s].

(* ================================================================== *)
(** ** [search_user] *)

(** SELECT * FROM users WHERE email = ?; fetchone() *)
Definition find_user (s : store) (email : str) : option user :=
  fetchone (filter (fun u => str_eqb (u_email u) email) (users s)).

(** SELECT * FROM appointments WHERE user_email = ? ORDER BY date, time *)
Definition appointments_of (s : store) (email : str) : list appointment :=
  order_by date_time_leb
           (filter (fun a => str_eqb (a_user_email a) email) (appointments s)).

(** [user['age'] or 'Not set'] inside an f-string *)
Definition age_detail (age : option Z) : str :=
  match age with
  | Some z => if (z =? 0)%Z then lit "Not set" else str_of_Z z
  | None => lit "Not set"
  end.

(** [user['bio'] or 'Not set'] *)
Definition bio_detail (bio : option str) : str := or_str bio (lit "Not set").

Definition not_found_notice (email : str) : output :=
  Print (10060%N :: lit " User not found: " ++ email).

Definition user_details (u : user) : list output :=
  [Print (nl ++ 128100%N :: lit " User Details:");
   Print (lit "  ID: " ++ str_of_Z (u_id u));
   Print (lit "  Name: " ++ u_name u);
   Print (lit "  Email: " ++ u_email u);
   Print (lit "  Age: " ++ age_detail (u_age u));
   Print (lit "  Bio: " ++ bio_detail (u_bio u));
   Print (lit "  Joined: " ++ u_created_at u)].

Definition search_appt_row (a : appointment) : list cell :=
  [CInt (a_id a); CStr (a_doctor a); CStr (a_date a); CStr (a_time a)].

Definition search_user (s : store) (email : str) : list output :=
  match find_user s email with
  | Some u =>
      let appts := appointments_of s email in
      user_details u
      ++ [Print (nl ++ 128197%N :: lit " Appointments ("
                    ++ str_of_nat (length appts) ++ lit "):");
          match appts with
          | _ :: _ =>
              Table Simple [lit "ID"; lit "Doctor"; lit "Date"; lit "Time"]
                    (map search_appt_row appts)
          | [] => Print (lit "  No appointments")
          end]
  | None => [not_found_notice email]
  end.

(* ================================================================== *)
(** ** The interactive program *)

Inductive exn :=
| OperationalError              (* sqlite3.OperationalError *)
| KeyboardInterrupt
| OtherError (msg : str).       (* any other Exception, with str(e) *)

(** input() at the end of the input raises EOFError. *)
Definition eof : exn := OtherError (lit "EOF when reading a line").

(** What the global name [tabulate] is bound to when a report runs.
    [from tabulate import tabulate] (line 9) binds it to the function.
    Run as a script, the module goes on to [import tabulate] (line 264)
    before it calls [main()], which binds the same name to the module;
    the import succeeds whenever the one of line 9 did. *)
Inductive tabulate_binding :=
| TabulateFunction              (* the module was imported *)
| TabulateModule.               (* the module was run as a script *)

(** [tabulate(...)] when the name is bound to the module: TypeError. *)
Definition not_callable : exn :=
  OtherError (lit "'module' object is not callable").

(** The first statement on a file that is not an SQLite database raises
    sqlite3.DatabaseError, which is not an OperationalError. *)
Definition not_a_database : exn := OtherError (lit "file is not a database").

(** What the terminal delivers to one call of input(). *)
Inductive input_event :=
| Line (s : str)
| Interrupt.

(** Output so far, and the exception that ended the run, if any. *)
Definition run : Type := list output * option exn.

Definition emit (o : list output) (r : run) : run := (o ++ fst r, snd r).

(** The print statements of a report, run in order under the binding of
    [tabulate].  A [Table] is [print(tabulate(...))]: bound to the module,
    the call raises before anything is printed, and the statements after
    it are not reached. *)
Fixpoint printing (b : tabulate_binding) (outs : list output) : run :=
  match outs with
  | [] => ([], None)
  | o :: outs' =>
      match o, b with
      | Table _ _ _, TabulateModule => ([], Some not_callable)
      | _, _ => emit [o] (printing b outs')
      end
  end.

(** A file that exists at the path [DATABASE]: not an SQLite database, or
    a database in which each of the two tables exists or not.  A file of
    0 bytes is a database without tables.  A table that exists has the
    columns of the schema. *)
Inductive database :=
| NotADatabase
| Tables (us : option (list user)) (appts : option (list appointment)).

(** A report whose queries, all run before its first print statement,
    read both tables: [view_appointments], [view_stats] and
    [view_recent_activity].  The first query on a missing table raises
    OperationalError. *)
Definition on_both_tables (b : tabulate_binding) (d : database)
           (f : store -> list output) : run :=
  match d with
  | NotADatabase => ([], Some not_a_database)
  | Tables (Some us) (Some appts) => printing b (f (mkStore us appts))
  | Tables _ _ => ([], Some OperationalError)
  end.

(** A call of [view_users()], whose query reads the users only. *)
Definition call_view_users (b : tabulate_binding) (d : database) : run :=
  match d with
  | NotADatabase => ([], Some not_a_database)
  | Tables (Some us) appts =>
      printing b (view_users (mkStore us (match appts with
                                          | Some a => a
                                          | None => []
                                          end)))
  | Tables None _ => ([], Some OperationalError)
  end.

Definition call_view_appointments (b : tabulate_binding) (d : database)
  : run := on_both_tables b d view_appointments.

Definition call_view_stats (b : tabulate_binding) (d : database)
           (today : str) : run :=
  on_both_tables b d (fun s => view_stats s today).

Definition call_view_recent_activity (b : tabulate_binding) (d : database)
  : run := on_both_tables b d view_recent_activity.

(** A call of [search_user(email)]: the first query reads the users; the
    second, on the appointments, runs only after the details of a user
    that was found have been printed. *)
Definition call_search_user (b : tabulate_binding) (d : database)
           (email : str) : run :=
  match d with
  | NotADatabase => ([], Some not_a_database)
  | Tables None _ => ([], Some OperationalError)
  | Tables (Some us) (Some appts) =>
      printing b (search_user (mkStore us appts) email)
  | Tables (Some us) None =>
      match find_user (mkStore us []) email with
      | Some u => (user_details u, Some OperationalError)
      | None => ([not_found_notice email], None)
      end
  end.

Definition print_section (title : string) : list output :=
  [Print (nl ++ times "=" 80); Print (lit "  " ++ lit title);
   Print (times "=" 80)].

Definition menu_text : list output :=
  [Print (nl ++ times "=" 80);
   Print (lit "  " ++ 127973%N :: lit " Health Assistant - Database Viewer");
   Print (times "=" 80);
   Print (nl ++ lit "  Options:");
   Print (lit "  1. View All Users");
   Print (lit "  2. View All Appointments");
   Print (lit "  3. View Statistics");
   Print (lit "  4. View Recent Activity");
   Print (lit "  5. Search User by Email");
   Print (lit "  6. Exit")].

Definition goodbye : str := nl ++ lit "  " ++ 128075%N :: lit " Goodbye!" ++ nl.

Fixpoint interactive_menu (b : tabulate_binding) (d : database) (today : str)
         (inputs : list input_event) {struct inputs} : run :=
  (* input("\n  Press Enter to continue..."), then the next round *)
  let pause (rest : list input_event) : run :=
    emit [Prompt (nl ++ lit "  Press Enter to continue...")]
         match rest with
         | Line _ :: rest' => interactive_menu b d today rest'
         | Interrupt :: _ => ([], Some KeyboardInterrupt)
         | [] => ([], Some eof)
         end in
  let after (r : run) (rest : list input_event) : run :=
    match snd r with
    | Some _ => r
    | None => emit (fst r) (pause rest)
    end in
  emit (menu_text ++ [Prompt (nl ++ lit "  Enter choice (1-6): ")])
    match inputs with
    | [] => ([], Some eof)
    | Interrupt :: _ => ([], Some KeyboardInterrupt)
    | Line l :: rest =>
        let choice := strip l in
        if str_eqb choice (lit "1") then
          emit (print_section "ALL USERS") (after (call_view_users b d) rest)
        else if str_eqb choice (lit "2") then
          emit (print_section "ALL APPOINTMENTS")
               (after (call_view_appointments b d) rest)
        else if str_eqb choice (lit "3") then
          emit (print_section "DATABASE STATISTICS")
               (after (call_view_stats b d today) rest)
        else if str_eqb choice (lit "4") then
          emit (print_section "RECENT ACTIVITY")
               (after (call_view_recent_activity b d) rest)
        else if str_eqb choice (lit "5") then
          emit [Prompt (nl ++ lit "  Enter email: ")]
            match rest with
            | Line e :: rest2 =>
                after (call_search_user b d (strip e)) rest2
            | Interrupt :: _ => ([], Some KeyboardInterrupt)
            | [] => ([], Some eof)
            end
        else if str_eqb choice (lit "6") then
          ([Print goodbye], None)
        else
          after ([Print (nl ++ lit "  " ++ 10060%N
                            :: lit " Invalid choice. Please try again.")],
                 None) rest
    end.

(** The state of the path [DATABASE] when the program starts. *)
Inductive db_file :=
| Absent                  (* no file at the path *)
| Present (d : database).

(** A database file with the two tables. *)
Definition Holds (s : store) : db_file :=
  Present (Tables (Some (users s)) (Some (appointments s))).

Record environment := mkEnv {
  file : db_file;
  (** the operating system lets the process open the path, and create
      it when it does not exist *)
  openable : bool
}.

Definition DATABASE : str := lit "health_assistant.db".

(** [sqlite3.connect(DATABASE)]: the library opens the path for reading
    and writing and creates the file when there is none, so the call
    raises OperationalError ("unable to open database file") only when
    the path can be neither opened nor created.  It does not read the
    file.  The result is the file the later statements run on: a file it
    has just created holds no table. *)
Definition sqlite3_connect (e : environment) : exn + database :=
  if openable e then
    inr (match file e with Absent => Tables None None | Present d => d end)
  else inl OperationalError.

Definition database_not_found : list output :=
  [Print (nl ++ 10060%N :: lit " Error: Database '" ++ DATABASE
             ++ lit "' not found!");
   Print (lit "   Make sure the Flask app has been run at least once.");
   Print (lit "   Run: python app.py" ++ nl)].

(** The except clauses of [main]. *)
Definition handler (e : option exn) : list output :=
  match e with
  | None => []
  | Some OperationalError => database_not_found
  | Some KeyboardInterrupt => [Print (nl ++ goodbye)]
  | Some (OtherError msg) =>
      [Print (nl ++ 10060%N :: lit " Error: " ++ msg ++ nl)]
  end.

(** [main()], under the binding of [tabulate] it is called with. *)
Definition main (b : tabulate_binding) (e : environment) (today : str)
           (inputs : list input_event) : list output :=
  match sqlite3_connect e with
  | inl err => handler (Some err)
  | inr d =>
      let r := interactive_menu b d today inputs in
      fst r ++ handler (snd r)
  end.

(** The program as shipped: [python view_database.py] runs the block
    under [if __name__ == "__main__"], which imports [tabulate] again
    and calls [main()]. *)
Definition script (e : environment) (today : str)
           (inputs : list input_event) : list output :=
  main TabulateModule e today inputs.

(* ================================================================== *)
(** * Vocabulary of the properties *)

(** The order of the specification on pairs (date, time): the dates
    decide, and equal dates leave it to the times. *)
Definition date_time_le (d1 t1 d2 t2 : str) : Prop :=
  str_compare d1 d2 = Lt \/ (d1 = d2 /\ str_compare t1 t2 <> Gt).

(** The text of a cell of a row. *)
Definition cell_text (c : cell) : str :=
  match c with CStr s => s | CInt _ => [] end.

(** The "Date" and "Time" columns of a row of the appointment table. *)
Definition row_date (r : list cell) : str := cell_text (nth 4 r (CInt 0)).
Definition row_time (r : list cell) : str := cell_text (nth 5 r (CInt 0)).

Definition row_le (r1 r2 : list cell) : Prop :=
  date_time_le (row_date r1) (row_time r1) (row_date r2) (row_time r2).

(** The appointment's email is the email of some user. *)
Definition has_user (us : list user) (a : appointment) : bool :=
  existsb (fun u => owns u a) us.

(** The appointments booked under an email that no user has. *)
Definition orphans (s : store) : list appointment :=
  filter (fun a => negb (has_user (users s) a)) (appointments s).

(** The appointments booked under the email of some user. *)
Definition owned (s : store) : list appointment :=
  filter (has_user (users s)) (appointments s).

(** The number of appointments booked under the email of [u]. *)
Definition user_appt_count (s : store) (u : user) : nat :=
  length (filter (owns u) (appointments s)).

(** What the "Most Active User" cell shows for a user. *)
Definition active_text (s : store) (u : user) : str :=
  u_name u ++ lit " (" ++ str_of_nat (user_appt_count s u)
         ++ lit " appointments)".

(** The number of appointments with the doctor [d]. *)
Definition bookings (s : store) (d : str) : nat :=
  length (filter (fun a => str_eqb (a_doctor a) d) (appointments s)).

(** What the "Most Booked Doctor" cell shows for a doctor. *)
Definition doctor_text (s : store) (d : str) : str :=
  d ++ lit " (" ++ str_of_nat (bookings s d) ++ lit " bookings)".

(** What a typed line is once the surrounding whitespace is removed. *)
Definition strip_event (ev : input_event) : input_event :=
  match ev with
  | Line l => Line (strip l)
  | Interrupt => Interrupt
  end.


(** The last step of a round of the menu, with the rest of the session
    as [k]: wait for Enter, then go on. *)
Definition pause_with (k : list input_event -> run)
           (rest : list input_event) : run :=
  emit [Prompt (nl ++ lit "  Press Enter to continue...")]
       match rest with
       | Line _ :: rest' => k rest'
       | Interrupt :: _ => ([], Some KeyboardInterrupt)
       | [] => ([], Some eof)
       end.

(** A report that ran as [r], followed by the pause unless it raised. *)
Definition after_with (k : list input_event -> run) (r : run)
           (rest : list input_event) : run :=
  match snd r with
  | Some _ => r
  | None => emit (fst r) (pause_with k rest)
  end.



(** The output is not a table. *)
Definition not_table (o : output) : Prop :=
  match o with
  | Table _ _ _ => False
  | _ => True
  end.



(** ** Example stores *)

Definition empty_store : store := mkStore [] [].

(** A small clinic: two users and four appointments; appointment 3 is
    booked under an email that no user has. *)
Definition ann : user :=
  mkUser 1 (lit "Ann") (lit "a@x.com") None None (lit "2024-01-01 09:00:00").

Definition bob : user :=
  mkUser 2 (lit "Bob") (lit "b@x.com") (Some 41%Z)
         (Some (lit "Runs marathons and reads about nutrition"))
         (lit "2024-01-02 09:00:00").

Definition appt1 : appointment :=
  mkAppt 1 (lit "a@x.com") (lit "Dr. Rao") (lit "2024-02-02") (lit "10:00")
         (lit "2024-01-10 08:00:00").

Definition appt2 : appointment :=
  mkAppt 2 (lit "b@x.com") (lit "Dr. Shah") (lit "2024-02-01") (lit "11:00")
         (lit "2024-01-11 08:00:00").

Definition appt3 : appointment :=
  mkAppt 3 (lit "c@x.com") (lit "Dr. Shah") (lit "2024-02-01") (lit "09:00")
         (lit "2024-01-12 08:00:00").

Definition appt4 : appointment :=
  mkAppt 4 (lit "b@x.com") (lit "Dr. Rao") (lit "2024-02-03") (lit "09:30")
         (lit "2024-01-13 08:00:00").

Definition clinic : store := mkStore [ann; bob] [appt1; appt2; appt3; appt4].

(** A user with the recorded age 0 and the empty string as bio. *)
Definition newborn : user :=
  mkUser 7 (lit "Cy") (lit "c@y.com") (Some 0%Z) (Some [])
         (lit "2024-03-01 09:00:00").

Definition nursery : store := mkStore [newborn] [].

(** Two users with one appointment each. *)
Definition tie_store : store := mkStore [ann; bob] [appt1; appt2].

(** The scenario of the specification: one user without appointments and
    one appointment under the email of nobody. *)
Definition lone_user : user :=
  mkUser 1 (lit "Ann") (lit "a@x.com") None None (lit "2024-01-01 09:00:00").

Definition orphan : appointment :=
  mkAppt 1 (lit "b@x.com") (lit "Dr. Rao") (lit "2024-02-02") (lit "10:00")
         (lit "2024-01-10 08:00:00").

Definition orphan_store : store := mkStore [lone_user] [orphan].

(* ================================================================== *)
(** * Properties *)

(** ** Strings *)

Lemma str_eqb_eq (a b : str) : str_eqb a b = true <-> a = b.
Proof.
  revert b; induction a as [|x a IH]; intros [|y b]; simpl;
    try (split; [discriminate | congruence]); try tauto.
  rewrite andb_true_iff, N.eqb_eq, IH.
  split; [intros [-> ->]; reflexivity | intros E; inversion E; auto].
Qed.

Lemma str_eqb_refl (a : str) : str_eqb a a = true.
Proof. apply str_eqb_eq; reflexivity. Qed.

Lemma str_eqb_neq (a b : str) : str_eqb a b = false <-> a <> b.
Proof.
  rewrite <- str_eqb_eq. destruct (str_eqb a b); split; congruence.
Qed.

Lemma str_compare_eq (a b : str) : str_compare a b = Eq <-> a = b.
Proof.
  revert b; induction a as [|x a IH]; intros [|y b]; simpl;
    try (split; [discriminate | congruence]); try tauto.
  destruct (N.compare_spec x y) as [->|H|H].
  - rewrite IH. split; [congruence | intros E; inversion E; auto].
  - split; [discriminate | intros E; inversion E; lia].
  - split; [discriminate | intros E; inversion E; lia].
Qed.

Lemma str_compare_antisym (a b : str) :
  str_compare b a = CompOpp (str_compare a b).
Proof.
  revert b; induction a as [|x a IH]; intros [|y b]; simpl; auto.
  rewrite (N.compare_antisym x y).
  destruct (N.compare x y); simpl; auto.
Qed.

Lemma str_compare_trans (c : comparison) (a b d : str) :
  str_compare a b = c -> str_compare b d = c -> str_compare a d = c.
Proof.
  revert b d; induction a as [|x a IH]; intros [|y b] [|z d]; simpl;
    try congruence.
  destruct (N.compare_spec x y) as [->|Hxy|Hxy].
  - destruct (N.compare y z); eauto.
  - intros <-. destruct (N.compare_spec y z) as [->|Hyz|Hyz];
      try discriminate; intros _.
    + apply N.compare_lt_iff in Hxy. now rewrite Hxy.
    + assert (H : (x < z)%N) by lia.
      apply N.compare_lt_iff in H. now rewrite H.
  - intros <-. destruct (N.compare_spec y z) as [->|Hyz|Hyz];
      try discriminate; intros _.
    + apply N.compare_gt_iff in Hxy. now rewrite Hxy.
    + assert (H : (z < x)%N) by lia.
      apply N.compare_gt_iff in H. now rewrite H.
Qed.

Lemma date_time_leb_le (x y : appointment) :
  date_time_leb x y = true <->
  date_time_le (a_date x) (a_time x) (a_date y) (a_time y).
Proof.
  unfold date_time_leb, date_time_le, str_leb.
  destruct (str_compare (a_date x) (a_date y)) eqn:E.
  - assert (E' := E). apply str_compare_eq in E'.
    destruct (str_compare (a_time x) (a_time y));
      split; intros H; try discriminate; auto;
      try (right; split; congruence).
    destruct H as [H|[_ H]]; congruence.
  - split; auto.
  - split; [discriminate|]. intros [H|[H _]]; [discriminate|].
    apply str_compare_eq in H. congruence.
Qed.

Lemma date_time_leb_total (x y : appointment) :
  date_time_leb x y = false -> date_time_leb y x = true.
Proof.
  unfold date_time_leb, str_leb.
  rewrite (str_compare_antisym (a_date x) (a_date y)).
  rewrite (str_compare_antisym (a_time x) (a_time y)).
  destruct (str_compare (a_date x) (a_date y)); simpl; try congruence.
  destruct (str_compare (a_time x) (a_time y)); simpl; congruence.
Qed.

Lemma date_time_leb_trans (x y z : appointment) :
  date_time_leb x y = true -> date_time_leb y z = true ->
  date_time_leb x z = true.
Proof.
  unfold date_time_leb, str_leb.
  destruct (str_compare (a_date x) (a_date y)) eqn:Exy; try discriminate.
  - apply str_compare_eq in Exy. rewrite Exy.
    destruct (str_compare (a_date y) (a_date z)); auto.
    destruct (str_compare (a_time x) (a_time y)) eqn:Txy; try discriminate.
    + apply str_compare_eq in Txy. rewrite Txy. auto.
    + destruct (str_compare (a_time y) (a_time z)) eqn:Tyz; try discriminate.
      * apply str_compare_eq in Tyz. rewrite <- Tyz, Txy. auto.
      * rewrite (str_compare_trans _ _ _ Txy Tyz). auto.
  - destruct (str_compare (a_date y) (a_date z)) eqn:Eyz; try discriminate.
    + apply str_compare_eq in Eyz. rewrite <- Eyz, Exy. auto.
    + rewrite (str_compare_trans _ _ _ Exy Eyz). auto.
Qed.

(** ** ORDER BY, LIMIT and fetchone *)

Section OrderByFacts.

Variable A : Type.
Variable leb : A -> A -> bool.

Lemma insert_row_perm (x : A) (l : list A) :
  Permutation (insert_row leb x l) (x :: l).
Proof.
  induction l as [|y l IH]; simpl; auto.
  destruct (leb x y); auto.
  rewrite IH. apply perm_swap.
Qed.

Lemma order_by_perm (l : list A) : Permutation (order_by leb l) l.
Proof.
  induction l as [|x l IH]; simpl; auto.
  rewrite insert_row_perm. auto.
Qed.

Lemma order_by_In (l : list A) (x : A) : In x (order_by leb l) <-> In x l.
Proof.
  split; apply Permutation_in;
    [apply order_by_perm | apply Permutation_sym, order_by_perm].
Qed.

Lemma order_by_length (l : list A) : length (order_by leb l) = length l.
Proof. apply Permutation_length, order_by_perm. Qed.

Lemma order_by_nil (l : list A) : order_by leb l = [] <-> l = [].
Proof.
  split; intros H.
  - apply length_zero_iff_nil. rewrite <- order_by_length, H. reflexivity.
  - subst. reflexivity.
Qed.

Lemma fetchone_limit (l : list A) : fetchone (limit 1 l) = fetchone l.
Proof. destruct l; reflexivity. Qed.

Lemma limit_In (n : nat) (l : list A) (x : A) :
  In x (limit n l) -> In x l.
Proof.
  unfold limit. intros H. rewrite <- (firstn_skipn n l).
  apply in_or_app; auto.
Qed.

Hypothesis leb_total : forall x y, leb x y = false -> leb y x = true.
Hypothesis leb_trans :
  forall x y z, leb x y = true -> leb y z = true -> leb x z = true.

Let le (x y : A) : Prop := leb x y = true.

Lemma insert_row_sorted (x : A) (l : list A) :
  StronglySorted le l -> StronglySorted le (insert_row leb x l).
Proof.
  induction 1 as [|y l Hl IH Hy]; simpl.
  - repeat constructor.
  - destruct (leb x y) eqn:E.
    + constructor; [constructor; auto|].
      constructor; [exact E|].
      eapply Forall_impl; [|exact Hy].
      intros z Hz. eapply leb_trans; eauto.
    + constructor; auto.
      eapply Permutation_Forall;
        [apply Permutation_sym, insert_row_perm|].
      constructor; auto. apply leb_total; auto.
Qed.

Lemma order_by_sorted (l : list A) : StronglySorted le (order_by leb l).
Proof.
  induction l as [|x l IH]; simpl.
  - constructor.
  - apply insert_row_sorted; auto.
Qed.

(** The first row of an ordered result comes before every row. *)
Lemma fetchone_order_by (l : list A) (x : A) :
  fetchone (order_by leb l) = Some x ->
  In x l /\ forall y, In y l -> leb x y = true.
Proof.
  intros H. pose proof (order_by_sorted l) as S.
  destruct (order_by leb l) as [|x' r] eqn:E; simpl in H; [discriminate|].
  injection H as ->.
  split.
  - apply order_by_In. rewrite E. left; reflexivity.
  - intros y Hy. apply order_by_In in Hy. rewrite E in Hy.
    apply StronglySorted_inv in S. destruct S as [_ F].
    destruct Hy as [<-|Hy].
    + destruct (leb x x) eqn:Exx; auto.
      rewrite <- Exx at 1. apply leb_total; auto.
    + rewrite Forall_forall in F. apply F; auto.
Qed.

End OrderByFacts.

Lemma StronglySorted_map (A B : Type) (f : A -> B) (R : B -> B -> Prop)
      (l : list A) :
  StronglySorted (fun x y => R (f x) (f y)) l -> StronglySorted R (map f l).
Proof.
  induction 1 as [|x l Hl IH Hx]; simpl; constructor; auto.
  rewrite Forall_map. exact Hx.
Qed.

Lemma StronglySorted_impl (A : Type) (R R' : A -> A -> Prop) (l : list A) :
  (forall x y, R x y -> R' x y) ->
  StronglySorted R l -> StronglySorted R' l.
Proof.
  intros HR. induction 1 as [|x l Hl IH Hx]; constructor; auto.
  eapply Forall_impl; [|exact Hx]. auto.
Qed.

Lemma filter_flat_map (A B : Type) (p : B -> bool) (f : A -> list B)
      (l : list A) :
  filter p (flat_map f l) = flat_map (fun x => filter p (f x)) l.
Proof.
  induction l as [|x l IH]; simpl; auto.
  rewrite filter_app, IH. reflexivity.
Qed.

(** ** The appointment listing is ordered (C5) *)

Lemma appointments_query_sorted (s : store) :
  StronglySorted (fun x y => date_time_leb (fst x) (fst y) = true)
                 (appointments_query s).
Proof.
  unfold appointments_query.
  apply order_by_sorted with
    (leb := fun x y : appointment * option str => date_time_leb (fst x) (fst y)).
  - intros x y. apply date_time_leb_total.
  - intros x y z. apply date_time_leb_trans.
Qed.

Lemma appointment_rows_sorted (s : store) :
  StronglySorted row_le (appointment_rows s).
Proof.
  unfold appointment_rows. apply StronglySorted_map.
  eapply StronglySorted_impl; [|apply appointments_query_sorted].
  intros [x nx] [y ny] H. apply date_time_leb_le in H. exact H.
Qed.

(** C5: in every table that List Appointments prints, each row comes
    before every later row in the order of (date, time): the dates
    compared first, the times when the dates are equal. *)
Theorem view_appointments_sorted (s : store) (fmt : tablefmt)
        (headers : list str) (rows : list (list cell)) :
  In (Table fmt headers rows) (view_appointments s) ->
  StronglySorted row_le rows.
Proof.
  unfold view_appointments.
  pose proof (appointment_rows_sorted s) as S. unfold appointment_rows in S.
  destruct (appointments_query s) as [|r q].
  - intros [H|[]]. discriminate.
  - intros [H|[H|[]]]; [|discriminate].
    injection H as _ _ <-. exact S.
Qed.

Example clinic_listing_order :
  map (fun r => a_id (fst r)) (appointments_query clinic) = [3; 2; 1; 4]%Z.
Proof. reflexivity. Qed.

Lemma view_appointments_sorted_witness :
  In (Table Grid appointments_headers (appointment_rows clinic))
     (view_appointments clinic)
  /\ StronglySorted row_le (appointment_rows clinic).
Proof.
  assert (H : In (Table Grid appointments_headers (appointment_rows clinic))
                 (view_appointments clinic)) by (left; reflexivity).
  split; [exact H | exact (@view_appointments_sorted clinic _ _ _ H)].
Defined.

(** ** List Users: the cells of a row (C4, C7, C10) *)





Example bob_bio_cell :
  bio_cell (u_bio bob) = CStr (lit "Runs marathons and reads about...").
Proof. reflexivity. Qed.



(** The table for a user with age 0 and an empty bio, and the table for
    the same user with both fields NULL. *)
Example nursery_table :
  view_users nursery
  = [Table Grid users_headers
           [[CInt 7; CStr (lit "Cy"); CStr (lit "c@y.com"); CStr (lit "N/A");
             CStr (lit "N/A"); CStr (lit "2024-03-01 09:00:00")]];
     Print (nl ++ 128202%N :: lit " Total Users: 1")]
  /\ view_users (mkStore [mkUser 7 (lit "Cy") (lit "c@y.com") None None
                                 (lit "2024-03-01 09:00:00")] [])
     = view_users nursery.
Proof. split; reflexivity. Qed.

(** The age column of the row of a user without a recorded age. *)
Lemma user_row_age_missing (u : user) :
  u_age u = None -> nth 3 (user_row u) (CInt 0) = CStr (lit "N/A").
Proof. intros H. simpl. rewrite H. reflexivity. Qed.

(** ** The empty store (C6) *)

(** Called with [tabulate] bound to the function, List Users prints the
    "no users" notice and no table on the store without users and
    appointments, and Statistics shows 0 users, 0 appointments, and "N/A"
    for the most active user and for the most booked doctor (and 0
    appointments today, whatever the date). *)
Lemma empty_store_reports (today : str) :
  call_view_users TabulateFunction (Tables (Some []) (Some []))
  = ([Print (10060%N :: lit " No users found")], None)
  /\ call_view_stats TabulateFunction (Tables (Some []) (Some [])) today =
     ([Table FancyGrid [lit "Metric"; lit "Value"]
         [[CStr (128101%N :: lit " Total Users"); CInt 0];
          [CStr (128197%N :: lit " Total Appointments"); CInt 0];
          [CStr (128336%N :: lit " Today's Appointments"); CInt 0];
          [CStr (11088%N :: lit " Most Active User"); CStr (lit "N/A")];
          [CStr ([128104; 8205; 9877; 65039]%N ++ lit " Most Booked Doctor");
           CStr (lit "N/A")]]], None).
Proof. split; reflexivity. Qed.

(** C6 fails on the program as shipped: run as a script on the store
    without users and appointments, List Users prints the "no users"
    notice, but Statistics prints no table: the call of [tabulate], which
    the script has bound to the module, raises, and the session ends with
    the message of that error. *)
Theorem script_empty_store_statistics (today : str)
        (rest : list input_event) :
  call_view_users TabulateModule (Tables (Some []) (Some []))
  = ([Print (10060%N :: lit " No users found")], None)
  /\ call_view_stats TabulateModule (Tables (Some []) (Some [])) today
     = ([], Some not_callable)
  /\ script (mkEnv (Holds empty_store) true) today (Line (lit "3") :: rest)
     = menu_text ++ [Prompt (nl ++ lit "  Enter choice (1-6): ")]
         ++ print_section "DATABASE STATISTICS"
         ++ [Print (nl ++ 10060%N
                       :: lit " Error: 'module' object is not callable"
                       ++ nl)].
Proof. repeat split. Qed.

(** ** Search User by Email (C7, C8) *)





Example ann_details :
  find_user clinic (lit "a@x.com") = Some ann
  /\ In (Print (lit "  Age: Not set")) (search_user clinic (lit "a@x.com"))
  /\ In (Print (lit "  Bio: Not set")) (search_user clinic (lit "a@x.com")).
Proof.
  split; [reflexivity|].
  split; [do 4 right | do 5 right]; left; reflexivity.
Qed.


Example search_missing_email :
  search_user clinic (lit "zoe@x.com")
  = [Print (10060%N :: lit " User not found: zoe@x.com")].
Proof. reflexivity. Qed.

(** A prefix of an existing email is not a match. *)
Example search_prefix_of_email :
  search_user clinic (lit "a@x.co")
  = [Print (10060%N :: lit " User not found: a@x.co")].
Proof. reflexivity. Qed.

(** ** Appointments without a user (C3) *)

Lemma owns_eq (u : user) (a : appointment) :
  owns u a = true <-> a_user_email a = u_email u.
Proof. apply str_eqb_eq. Qed.

Lemma filter_nil_iff (A : Type) (p : A -> bool) (l : list A) :
  filter p l = [] <-> forall x, In x l -> p x = false.
Proof.
  induction l as [|x l IH]; simpl.
  - split; [intros _ y [] | reflexivity].
  - destruct (p x) eqn:E.
    + split; [discriminate|]. intros H.
      specialize (H x (or_introl eq_refl)). congruence.
    + rewrite IH. split.
      * intros H y [<-|Hy]; auto.
      * intros H y Hy. apply H. right; exact Hy.
Qed.



Lemma left_join_users_fst (us : list user) (a : appointment)
      (r : appointment * option str) :
  In r (left_join_users us a) -> fst r = a.
Proof.
  unfold left_join_users.
  destruct (filter (fun u => owns u a) us) as [|u l].
  - intros [<-|[]]. reflexivity.
  - intros H. apply in_map_iff in H. destruct H as [u' [<- _]]. reflexivity.
Qed.



Example orphan_scenario :
  appointment_rows orphan_store
  = [[CInt 1; CStr (lit "Unknown"); CStr (lit "b@x.com"); CStr (lit "Dr. Rao");
      CStr (lit "2024-02-02"); CStr (lit "10:00");
      CStr (lit "2024-01-10 08:00:00")]]
  /\ recent_appts_section orphan_store = Print (lit "  No appointments yet").
Proof. split; reflexivity. Qed.


(** ** Statistics: the appointment count of a user (C2, C9) *)

Lemma filter_all (A : Type) (p : A -> bool) (l : list A) :
  (forall x, In x l -> p x = true) -> filter p l = l.
Proof.
  induction l as [|x l IH]; simpl; intros H; auto.
  rewrite (H x (or_introl eq_refl)), IH; auto.
Qed.

Lemma left_join_appointments_fst (appts : list appointment) (u : user)
      (r : user * option appointment) :
  In r (left_join_appointments appts u) -> fst r = u.
Proof.
  unfold left_join_appointments.
  destruct (filter (owns u) appts) as [|a l].
  - intros [<-|[]]. reflexivity.
  - intros H. apply in_map_iff in H. destruct H as [a' [<- _]]. reflexivity.
Qed.

Lemma left_join_appointments_count (appts : list appointment) (u : user) :
  count_id (left_join_appointments appts u) = length (filter (owns u) appts).
Proof.
  unfold left_join_appointments, count_id.
  destruct (filter (owns u) appts) as [|a l]; [reflexivity|].
  rewrite filter_all, length_map; [reflexivity|].
  intros r H. apply in_map_iff in H. destruct H as [a' [<- _]]. reflexivity.
Qed.

Lemma left_join_appointments_name (appts : list appointment) (u : user) :
  match left_join_appointments appts u with
  | r :: _ => u_name (fst r)
  | [] => []
  end = u_name u.
Proof.
  unfold left_join_appointments.
  destruct (filter (owns u) appts); reflexivity.
Qed.

Lemma left_join_appointments_keys (appts : list appointment) (u : user) :
  exists k, map (fun r => u_email (fst r)) (left_join_appointments appts u)
            = repeat (u_email u) (S k).
Proof.
  unfold left_join_appointments.
  destruct (filter (owns u) appts) as [|a l].
  - exists 0. reflexivity.
  - exists (length l). rewrite map_map. simpl. f_equal.
    induction l; simpl; congruence.
Qed.

Lemma nodup_repeat_app (e : str) (k : nat) (l : list str) :
  ~ In e l -> nodup str_eq_dec (repeat e (S k) ++ l) = e :: nodup str_eq_dec l.
Proof.
  intros H. induction k as [|k IH].
  - simpl. destruct (in_dec str_eq_dec e l); [contradiction | reflexivity].
  - change (repeat e (S (S k)) ++ l) with (e :: (repeat e (S k) ++ l)).
    cbn [nodup]. rewrite IH.
    destruct (in_dec str_eq_dec e (repeat e (S k) ++ l)) as [|N];
      [reflexivity|].
    destruct N. left; reflexivity.
Qed.

Section ActivityRows.

Variable appts : list appointment.

Let key (r : user * option appointment) : str := u_email (fst r).
Let joined (us : list user) := flat_map (left_join_appointments appts) us.

Lemma joined_keys (us : list user) (e : str) :
  In e (map key (joined us)) -> In e (map u_email us).
Proof.
  intros H. apply in_map_iff in H. destruct H as [r [<- H]].
  apply in_flat_map in H. destruct H as [u [Hu H]].
  apply left_join_appointments_fst in H. unfold key. rewrite H.
  apply in_map. exact Hu.
Qed.

Lemma joined_distinct_keys (us : list user) :
  NoDup (map u_email us) ->
  nodup str_eq_dec (map key (joined us)) = map u_email us.
Proof.
  induction us as [|u us IH]; simpl; intros N; [reflexivity|].
  inversion N as [|e l Hnot N']; subst.
  rewrite map_app.
  destruct (left_join_appointments_keys appts u) as [k Hk].
  fold key in Hk. rewrite Hk.
  rewrite nodup_repeat_app.
  - rewrite IH by exact N'. reflexivity.
  - intros H. apply Hnot. apply joined_keys. exact H.
Qed.

Lemma joined_group (us : list user) (u : user) :
  NoDup (map u_email us) -> In u us ->
  filter (fun r => str_eqb (key r) (u_email u)) (joined us)
  = left_join_appointments appts u.
Proof.
  induction us as [|u0 us IH]; simpl; intros N Hu; [destruct Hu|].
  inversion N as [|e l Hnot N']; subst.
  rewrite filter_app. destruct Hu as [->|Hu].
  - rewrite filter_all.
    + replace (filter _ (joined us)) with (@nil (user * option appointment));
        [apply app_nil_r|].
      symmetry. apply filter_nil_iff. intros r Hr.
      apply str_eqb_neq. intros E. apply Hnot. rewrite <- E.
      apply joined_keys. apply in_map. exact Hr.
    + intros r Hr. apply left_join_appointments_fst in Hr.
      unfold key. rewrite Hr. apply str_eqb_refl.
  - rewrite IH by assumption.
    replace (filter _ (left_join_appointments appts u0))
      with (@nil (user * option appointment)); [reflexivity|].
    symmetry. apply filter_nil_iff. intros r Hr.
    apply left_join_appointments_fst in Hr.
    apply str_eqb_neq. unfold key. rewrite Hr. intros E.
    apply Hnot. rewrite E. apply in_map. exact Hu.
Qed.

End ActivityRows.

(** With unique emails the grouped query has one row for each user, with
    the number of appointments booked under the email of the user. *)
Lemma activity_rows_unique_emails (s : store) :
  NoDup (map u_email (users s)) ->
  activity_rows s
  = map (fun u => (u_name u, u_email u, user_appt_count s u)) (users s).
Proof.
  intros N. unfold activity_rows, group_by.
  rewrite joined_distinct_keys by exact N.
  rewrite !map_map. apply map_ext_in. intros u Hu. simpl.
  rewrite joined_group by assumption.
  rewrite left_join_appointments_name, left_join_appointments_count.
  reflexivity.
Qed.

(** ** Statistics: the most active user (C2) *)

Lemma active_text_not_NA (name : str) (n : nat) :
  name ++ lit " (" ++ str_of_nat n ++ lit " appointments)" <> lit "N/A".
Proof.
  intros H. apply (f_equal (fun l => last l 0%N)) in H.
  assert (E : name ++ lit " (" ++ str_of_nat n ++ lit " appointments)"
              = (name ++ lit " (" ++ str_of_nat n ++ lit " appointments")
                  ++ [41%N])
    by (rewrite <- !app_assoc; reflexivity).
  rewrite E, last_last in H. discriminate.
Qed.

Lemma most_active_None (s : store) :
  most_active s = None <-> activity_rows s = [].
Proof.
  unfold most_active. rewrite fetchone_limit. unfold fetchone.
  rewrite <- (order_by_nil (fun x y : str * str * nat => snd y <=? snd x)).
  destruct (order_by _ (activity_rows s)); simpl; split; congruence.
Qed.

Lemma most_active_Some (s : store) (r : str * str * nat) :
  most_active s = Some r ->
  In r (activity_rows s)
  /\ forall r', In r' (activity_rows s) -> snd r' <= snd r.
Proof.
  unfold most_active. rewrite fetchone_limit. intros H.
  apply fetchone_order_by in H.
  - destruct H as [H1 H2]. split; [exact H1|].
    intros r' Hr'. apply Nat.leb_le. apply H2. exact Hr'.
  - intros x y E. apply Nat.leb_gt in E. apply Nat.leb_le. lia.
  - intros x y z H1 H2. apply Nat.leb_le in H1, H2. apply Nat.leb_le. lia.
Qed.

(** C2, as the code has it: with unique user emails, the "Most Active
    User" cell is "N/A" exactly when every user has zero appointments;
    otherwise it shows the name and count of a user whose appointment
    count no user exceeds. *)
Theorem most_active_user_maximal (s : store) :
  NoDup (map u_email (users s)) ->
  (most_active_cell (most_active s) = CStr (lit "N/A")
   <-> forall u, In u (users s) -> user_appt_count s u = 0)
  /\ ((exists u, In u (users s) /\ 0 < user_appt_count s u) ->
      exists u, In u (users s)
                /\ most_active_cell (most_active s) = CStr (active_text s u)
                /\ forall u', In u' (users s) ->
                              user_appt_count s u' <= user_appt_count s u).
Proof.
  intros N. pose proof (activity_rows_unique_emails s N) as R.
  destruct (most_active s) as [[[name email] n]|] eqn:M.
  - apply most_active_Some in M. destruct M as [M1 M2].
    rewrite R in M1. apply in_map_iff in M1.
    destruct M1 as [u [Eu Hu]]. injection Eu as <- <- <-.
    assert (Max : forall u', In u' (users s) ->
                             user_appt_count s u' <= user_appt_count s u).
    { intros u' Hu'.
      apply (M2 (u_name u', u_email u', user_appt_count s u')).
      rewrite R. apply in_map_iff. exists u'. auto. }
    unfold most_active_cell. split.
    + destruct (0 <? user_appt_count s u) eqn:Z.
      * apply Nat.ltb_lt in Z. split.
        -- intros H. injection H as H. destruct (active_text_not_NA _ _ H).
        -- intros H. specialize (H u Hu). lia.
      * apply Nat.ltb_ge in Z. split; [|reflexivity].
        intros _ u' Hu'. specialize (Max u' Hu'). lia.
    + intros [u' [Hu' P]]. exists u. split; [exact Hu|]. split; [|exact Max].
      specialize (Max u' Hu').
      assert (Z : 0 < user_appt_count s u) by lia.
      apply Nat.ltb_lt in Z. rewrite Z. reflexivity.
  - apply most_active_None in M. rewrite R in M.
    apply map_eq_nil in M. split.
    + split; [|reflexivity]. intros _ u Hu. rewrite M in Hu. destruct Hu.
    + intros [u [Hu _]]. rewrite M in Hu. destruct Hu.
Qed.

(** In the order the model gives to rows with equal counts. *)
Example tie_store_most_active :
  most_active_cell (most_active tie_store)
  = CStr (lit "Ann (1 appointments)").
Proof. reflexivity. Qed.

(** C2 as stated fails on a tie: some user has appointments, yet no user
    has a count strictly greater than the count of every other user. *)
Lemma most_active_tie_not_strict :
  (exists u, In u (users tie_store) /\ 0 < user_appt_count tie_store u)
  /\ ~ (exists u, In u (users tie_store)
                  /\ most_active_cell (most_active tie_store)
                     = CStr (active_text tie_store u)
                  /\ forall u', In u' (users tie_store) ->
                                u_email u' <> u_email u ->
                                user_appt_count tie_store u'
                                < user_appt_count tie_store u).
Proof.
  split.
  - exists ann. split; [left; reflexivity | vm_compute; lia].
  - intros [u [Hu [_ H]]]. destruct Hu as [<-|[<-|[]]].
    + assert (X : user_appt_count tie_store bob < user_appt_count tie_store ann).
      { apply H; [right; left; reflexivity | discriminate]. }
      vm_compute in X. lia.
    + assert (X : user_appt_count tie_store ann < user_appt_count tie_store bob).
      { apply H; [left; reflexivity | discriminate]. }
      vm_compute in X. lia.
Qed.

Lemma most_active_user_maximal_witness :
  NoDup (map u_email (users clinic))
  /\ (most_active_cell (most_active clinic) = CStr (lit "N/A")
      <-> forall u, In u (users clinic) -> user_appt_count clinic u = 0)
  /\ ((exists u, In u (users clinic) /\ 0 < user_appt_count clinic u) ->
      exists u, In u (users clinic)
                /\ most_active_cell (most_active clinic)
                   = CStr (active_text clinic u)
                /\ forall u', In u' (users clinic) ->
                              user_appt_count clinic u'
                              <= user_appt_count clinic u).
Proof.
  assert (H : NoDup (map u_email (users clinic)))
    by (repeat constructor; simpl; intuition discriminate).
  split; [exact H|].
  exact (@most_active_user_maximal clinic H).
Defined.

Example clinic_most_active :
  most_active_cell (most_active clinic) = CStr (lit "Bob (2 appointments)").
Proof. reflexivity. Qed.

(** ** Statistics: what the counts count (C9) *)

Lemma filter_split_length (A : Type) (p : A -> bool) (l : list A) :
  length l = length (filter p l) + length (filter (fun x => negb (p x)) l).
Proof.
  induction l as [|x l IH]; simpl; auto.
  destruct (p x); simpl; lia.
Qed.

Lemma filter_comm (A : Type) (p q : A -> bool) (l : list A) :
  filter p (filter q l) = filter q (filter p l).
Proof.
  induction l as [|x l IH]; simpl; auto.
  destruct (p x) eqn:P, (q x) eqn:Q; simpl; rewrite ?P, ?Q, IH; reflexivity.
Qed.

Lemma list_sum_indicator (A : Type) (p : A -> bool) (l : list A) :
  list_sum (map (fun x => if p x then 1 else 0) l) = length (filter p l).
Proof.
  induction l as [|x l IH]; simpl; auto.
  destruct (p x); simpl; lia.
Qed.

Lemma list_sum_map_add (A : Type) (f g : A -> nat) (l : list A) :
  list_sum (map (fun x => f x + g x) l)
  = list_sum (map f l) + list_sum (map g l).
Proof.
  induction l as [|x l IH]; simpl; lia.
Qed.

(** Counting the pairs (user, appointment) that match, by user or by
    appointment. *)
Lemma count_by_user_or_appointment (us : list user)
      (appts : list appointment) :
  list_sum (map (fun u => length (filter (owns u) appts)) us)
  = list_sum (map (fun a => length (filter (fun u => owns u a) us)) appts).
Proof.
  induction appts as [|a appts IH]; simpl.
  - induction us; simpl; auto.
  - rewrite <- IH, <- list_sum_indicator, <- list_sum_map_add.
    f_equal. apply map_ext. intros u. destruct (owns u a); reflexivity.
Qed.

Lemma unique_owner (us : list user) (a : appointment) :
  NoDup (map u_email us) ->
  length (filter (fun u => owns u a) us) = if has_user us a then 1 else 0.
Proof.
  unfold has_user. induction us as [|u us IH]; simpl; intros N; auto.
  inversion N as [|e l Hnot N']; subst.
  destruct (owns u a) eqn:E; simpl.
  - f_equal. apply length_zero_iff_nil, filter_nil_iff. intros u' Hu'.
    destruct (owns u' a) eqn:E'; [|reflexivity].
    apply owns_eq in E, E'. destruct Hnot. rewrite <- E, E'.
    apply in_map. exact Hu'.
  - apply IH. exact N'.
Qed.

Lemma total_of_user_counts (s : store) :
  NoDup (map u_email (users s)) ->
  list_sum (map (user_appt_count s) (users s)) = length (owned s).
Proof.
  intros N. unfold user_appt_count, owned.
  rewrite count_by_user_or_appointment, <- list_sum_indicator.
  f_equal. apply map_ext. intros a. apply unique_owner. exact N.
Qed.

(** C9: with unique user emails, the rows of the grouped query of
    Statistics are the users, each with the number of appointments whose
    email equals the email of that user.  An appointment under an email
    that no user has is in no user's count, but it is counted in the
    total and, when its date is the current date, in today's count.  The
    counts of the users add up to the total less the number of such
    appointments, so to less than the total as soon as there is one. *)
Theorem stats_counts (s : store) (today : str) :
  NoDup (map u_email (users s)) ->
  (forall name email n,
      In (name, email, n) (activity_rows s) <->
      exists u, In u (users s) /\ name = u_name u /\ email = u_email u
                /\ n = length (filter (fun a => str_eqb (a_user_email a)
                                                        (u_email u))
                                      (appointments s)))
  /\ (forall a u, In a (orphans s) -> In u (users s) ->
                  ~ In a (filter (fun a => str_eqb (a_user_email a) (u_email u))
                                 (appointments s)))
  /\ appt_count s = length (owned s) + length (orphans s)
  /\ today_count s today
     = length (filter (fun a => str_eqb (a_date a) today) (owned s))
       + length (filter (fun a => str_eqb (a_date a) today) (orphans s))
  /\ list_sum (map snd (activity_rows s)) + length (orphans s) = appt_count s
  /\ (forall a, In a (orphans s) ->
                list_sum (map snd (activity_rows s)) < appt_count s).
Proof.
  intros N.
  assert (T : list_sum (map snd (activity_rows s)) = length (owned s)).
  { rewrite (activity_rows_unique_emails s N), map_map. simpl.
    apply total_of_user_counts. exact N. }
  assert (P : appt_count s = length (owned s) + length (orphans s)).
  { unfold appt_count, owned, orphans. apply filter_split_length. }
  split.
  { intros name email n. rewrite (activity_rows_unique_emails s N).
    rewrite in_map_iff. split.
    - intros [u [E Hu]]. injection E as <- <- <-. exists u. auto.
    - intros [u [Hu [-> [-> ->]]]]. exists u. auto. }
  split.
  { intros a u Ha Hu Hin. unfold orphans in Ha.
    apply filter_In in Ha. destruct Ha as [_ Ha].
    apply filter_In in Hin. destruct Hin as [_ Hin].
    apply negb_true_iff in Ha. unfold has_user in Ha.
    assert (X : existsb (fun u => owns u a) (users s) = true)
      by (apply existsb_exists; exists u; auto).
    congruence. }
  split; [exact P|].
  split.
  { unfold today_count, owned, orphans.
    rewrite (filter_split_length (has_user (users s))
               (filter (fun a => str_eqb (a_date a) today) (appointments s))).
    f_equal; f_equal; apply filter_comm. }
  split; [lia|].
  intros a Ha. destruct (orphans s); [destruct Ha | simpl in P; lia].
Qed.

Example clinic_counts :
  map snd (activity_rows clinic) = [1; 2]
  /\ appt_count clinic = 4
  /\ today_count clinic (lit "2024-02-01") = 2
  /\ orphans clinic = [appt3].
Proof. repeat split. Qed.

Lemma stats_counts_witness :
  NoDup (map u_email (users clinic))
  /\ (forall name email n,
         In (name, email, n) (activity_rows clinic) <->
         exists u, In u (users clinic) /\ name = u_name u
                   /\ email = u_email u
                   /\ n = length (filter (fun a => str_eqb (a_user_email a)
                                                           (u_email u))
                                         (appointments clinic)))
  /\ (forall a u, In a (orphans clinic) -> In u (users clinic) ->
                  ~ In a (filter (fun a => str_eqb (a_user_email a) (u_email u))
                                 (appointments clinic)))
  /\ appt_count clinic = length (owned clinic) + length (orphans clinic)
  /\ today_count clinic (lit "2024-02-01")
     = length (filter (fun a => str_eqb (a_date a) (lit "2024-02-01"))
                      (owned clinic))
       + length (filter (fun a => str_eqb (a_date a) (lit "2024-02-01"))
                        (orphans clinic))
  /\ list_sum (map snd (activity_rows clinic)) + length (orphans clinic)
     = appt_count clinic
  /\ (forall a, In a (orphans clinic) ->
                list_sum (map snd (activity_rows clinic)) < appt_count clinic).
Proof.
  assert (H : NoDup (map u_email (users clinic)))
    by (repeat constructor; simpl; intuition discriminate).
  split; [exact H|].
  exact (@stats_counts clinic (lit "2024-02-01") H).
Defined.

(** ** Startup (C1) *)

(** Every run of the menu starts by printing the menu. *)
Lemma interactive_menu_prints_menu (b : tabulate_binding) (d : database)
      (today : str) (inputs : list input_event) :
  exists rest,
    fst (interactive_menu b d today inputs)
    = menu_text ++ Prompt (nl ++ lit "  Enter choice (1-6): ") :: rest.
Proof.
  destruct inputs as [|ev rest]; cbn [interactive_menu];
    unfold emit; cbn [fst]; rewrite <- app_assoc;
    eexists; reflexivity.
Qed.

(** When the path can be neither opened nor created, the program prints
    the "database not found" message and nothing else. *)
Lemma main_store_unreachable (b : tabulate_binding) (e : environment)
      (today : str) (inputs : list input_event) :
  openable e = false -> main b e today inputs = database_not_found.
Proof.
  intros H. unfold main, sqlite3_connect. rewrite H. reflexivity.
Qed.

(** C1 fails on the code for an absent store file: connecting creates
    the file, so the program prints the menu and asks for a choice,
    whatever the input is and however [main] is called. *)
Theorem main_absent_store_enters_menu (b : tabulate_binding) (today : str)
        (inputs : list input_event) :
  sqlite3_connect (mkEnv Absent true) = inr (Tables None None)
  /\ exists rest,
      main b (mkEnv Absent true) today inputs
      = menu_text ++ Prompt (nl ++ lit "  Enter choice (1-6): ") :: rest.
Proof.
  split; [reflexivity|].
  unfold main. cbn [sqlite3_connect openable file].
  destruct (interactive_menu_prints_menu b (Tables None None) today inputs)
    as [rest E].
  exists (rest ++ handler (snd (interactive_menu b (Tables None None)
                                                 today inputs))).
  rewrite E, <- app_assoc. reflexivity.
Qed.

(** On the file it has just created, "View All Users" fails on the
    missing table: only then, after the menu, does the program print the
    "database not found" message. *)
Example main_absent_store_view_users (b : tabulate_binding) (today : str) :
  main b (mkEnv Absent true) today [Line (lit "1")]
  = menu_text ++ [Prompt (nl ++ lit "  Enter choice (1-6): ")]
      ++ print_section "ALL USERS" ++ database_not_found.
Proof. reflexivity. Qed.

(** A session on the example store, with [tabulate] bound to the
    function: statistics, then exit. *)
Example main_clinic_session :
  main TabulateFunction (mkEnv (Holds clinic) true) (lit "2024-02-01")
       [Line (lit " 3 "); Line []; Line (lit "6")]
  = menu_text ++ [Prompt (nl ++ lit "  Enter choice (1-6): ")]
      ++ print_section "DATABASE STATISTICS"
      ++ view_stats clinic (lit "2024-02-01")
      ++ [Prompt (nl ++ lit "  Press Enter to continue...")]
      ++ menu_text ++ [Prompt (nl ++ lit "  Enter choice (1-6): ")]
      ++ [Print goodbye].
Proof. reflexivity. Qed.

(** The same session run as a script ends at the call of [tabulate]. *)
Example script_clinic_session :
  script (mkEnv (Holds clinic) true) (lit "2024-02-01")
         [Line (lit " 3 "); Line []; Line (lit "6")]
  = menu_text ++ [Prompt (nl ++ lit "  Enter choice (1-6): ")]
      ++ print_section "DATABASE STATISTICS"
      ++ [Print (nl ++ 10060%N :: lit " Error: 'module' object is not callable"
                    ++ nl)].
Proof. reflexivity. Qed.

(** Recent Activity on the example store: appointment 3 has no user and
    is not among the recent appointments. *)
Example clinic_recent_activity :
  map (fun r => a_id (snd r)) (recent_appts clinic) = [4; 2; 1]%Z
  /\ map u_id (recent_users clinic) = [2; 1]%Z
  /\ recent_appts_section clinic
     = Table Simple [lit "User"; lit "Doctor"; lit "Date"; lit "Time";
                     lit "Booked"]
             [[CStr (lit "Bob"); CStr (lit "Dr. Rao"); CStr (lit "2024-02-03");
               CStr (lit "09:30"); CStr (lit "2024-01-13 08:00:00")];
              [CStr (lit "Bob"); CStr (lit "Dr. Shah"); CStr (lit "2024-02-01");
               CStr (lit "11:00"); CStr (lit "2024-01-11 08:00:00")];
              [CStr (lit "Ann"); CStr (lit "Dr. Rao"); CStr (lit "2024-02-02");
               CStr (lit "10:00"); CStr (lit "2024-01-10 08:00:00")]].
Proof. repeat split. Qed.

(* ================================================================== *)
(** * Further properties of the reports *)

(** ** List Users *)

(** X1: the "Bio" cell of a row of List Users is a text of at least 1 and
    at most 33 characters, whatever the stored bio is. *)
Theorem bio_cell_bounded (u : user) :
  exists t, nth 4 (user_row u) (CInt 0) = CStr t
            /\ 1 <= length t <= 33.
Proof.
  simpl. unfold bio_cell.
  destruct (30 <? length (or_str (u_bio u) [])) eqn:L.
  - eexists. split; [reflexivity|].
    apply Nat.ltb_lt in L.
    rewrite length_app, firstn_length_le by lia. simpl. lia.
  - eexists. split; [reflexivity|].
    apply Nat.ltb_ge in L.
    destruct (u_bio u) as [[|c b]|]; simpl in *; lia.
Qed.

(** ** List Appointments *)

Lemma str_eqb_sym (a b : str) : str_eqb a b = str_eqb b a.
Proof.
  destruct (str_eqb a b) eqn:E.
  - apply str_eqb_eq in E. subst. symmetry. apply str_eqb_refl.
  - apply str_eqb_neq in E. symmetry. apply str_eqb_neq. congruence.
Qed.

(** With unique emails, the users with a given email are one user. *)
Lemma unique_email_filter (us : list user) (u : user) :
  NoDup (map u_email us) -> In u us ->
  filter (fun u' => str_eqb (u_email u') (u_email u)) us = [u].
Proof.
  induction us as [|u0 us IH]; simpl; intros N Hu; [destruct Hu|].
  inversion N as [|e l Hnot N']; subst.
  destruct Hu as [->|Hu].
  - rewrite str_eqb_refl. f_equal. apply filter_nil_iff. intros u' Hu'.
    apply str_eqb_neq. intros E. apply Hnot. rewrite <- E.
    apply in_map. exact Hu'.
  - replace (str_eqb (u_email u0) (u_email u)) with false.
    + apply IH; assumption.
    + symmetry. apply str_eqb_neq. intros E. apply Hnot. rewrite E.
      apply in_map. exact Hu.
Qed.

Lemma unique_owner_filter (us : list user) (u : user) (a : appointment) :
  NoDup (map u_email us) -> In u us -> a_user_email a = u_email u ->
  filter (fun u' => owns u' a) us = [u].
Proof.
  intros N Hu E. rewrite <- (@unique_email_filter us u N Hu).
  apply filter_ext. intros u'. unfold owns. rewrite E. apply str_eqb_sym.
Qed.



(** X2: List Appointments neither loses nor invents an appointment: an
    appointment has a row in the listing exactly when it is in the store,
    so the listing has at least as many rows as the store has
    appointments. *)
Theorem listing_covers_store (s : store) :
  (forall a, (exists n, In (a, n) (appointments_query s))
             <-> In a (appointments s))
  /\ appt_count s <= length (appointment_rows s).
Proof.
  split.
  - intros a. unfold appointments_query. split.
    + intros [n H]. apply order_by_In in H. apply in_flat_map in H.
      destruct H as [a' [Ha' H]].
      apply left_join_users_fst in H. simpl in H. subst. exact Ha'.
    + intros Ha. unfold left_join_users.
      destruct (filter (fun u => owns u a) (users s)) as [|u l] eqn:F.
      * exists None. apply order_by_In. apply in_flat_map.
        exists a. split; [exact Ha|]. unfold left_join_users. rewrite F.
        left; reflexivity.
      * exists (Some (u_name u)). apply order_by_In. apply in_flat_map.
        exists a. split; [exact Ha|]. unfold left_join_users. rewrite F.
        left; reflexivity.
  - unfold appointment_rows, appointments_query, appt_count.
    rewrite length_map, order_by_length.
    induction (appointments s) as [|a l IH]; simpl; [lia|].
    rewrite length_app.
    assert (1 <= length (left_join_users (users s) a)).
    { unfold left_join_users.
      destruct (filter (fun u => owns u a) (users s)); simpl; lia. }
    lia.
Qed.



(** X4: with unique user emails, every row the listing has for an
    appointment booked under the email of a user shows the name of that
    user, and shows "Unknown" when that name is the empty string. *)
Theorem listing_user_name (s : store) (u : user) (a : appointment) :
  NoDup (map u_email (users s)) ->
  In u (users s) -> In a (appointments s) ->
  a_user_email a = u_email u ->
  (forall r, In r (appointments_query s) -> fst r = a ->
             snd r = Some (u_name u))
  /\ In [CInt (a_id a);
         CStr (match u_name u with
               | [] => lit "Unknown"
               | _ :: _ => u_name u
               end);
         CStr (a_user_email a); CStr (a_doctor a); CStr (a_date a);
         CStr (a_time a); CStr (a_booked_at a)]
        (appointment_rows s).
Proof.
  intros N Hu Ha E.
  pose proof (@unique_owner_filter (users s) u a N Hu E) as F.
  split.
  - intros r Hr Hfst. unfold appointments_query in Hr.
    apply order_by_In in Hr. apply in_flat_map in Hr.
    destruct Hr as [a' [Ha' Hr]].
    pose proof (left_join_users_fst _ _ _ Hr) as E'.
    assert (Ea : a' = a) by congruence. clear E'. rewrite Ea in Hr.
    unfold left_join_users in Hr. rewrite F in Hr.
    destruct Hr as [<-|[]]. reflexivity.
  - unfold appointment_rows. apply in_map_iff.
    exists (a, Some (u_name u)). split.
    + simpl. destruct (u_name u); reflexivity.
    + unfold appointments_query. apply order_by_In. apply in_flat_map.
      exists a. split; [exact Ha|]. unfold left_join_users. rewrite F.
      left; reflexivity.
Qed.

Lemma listing_user_name_witness :
  NoDup (map u_email (users clinic))
  /\ In bob (users clinic) /\ In appt4 (appointments clinic)
  /\ a_user_email appt4 = u_email bob
  /\ (forall r, In r (appointments_query clinic) -> fst r = appt4 ->
                snd r = Some (u_name bob))
  /\ In [CInt (a_id appt4);
         CStr (match u_name bob with
               | [] => lit "Unknown"
               | _ :: _ => u_name bob
               end);
         CStr (a_user_email appt4); CStr (a_doctor appt4);
         CStr (a_date appt4); CStr (a_time appt4);
         CStr (a_booked_at appt4)]
        (appointment_rows clinic).
Proof.
  assert (H1 : NoDup (map u_email (users clinic)))
    by (repeat constructor; simpl; intuition discriminate).
  assert (H2 : In bob (users clinic)) by (right; left; reflexivity).
  assert (H3 : In appt4 (appointments clinic))
    by (do 3 right; left; reflexivity).
  assert (H4 : a_user_email appt4 = u_email bob) by reflexivity.
  split; [exact H1|]. split; [exact H2|]. split; [exact H3|].
  split; [exact H4|].
  exact (@listing_user_name clinic bob appt4 H1 H2 H3 H4).
Defined.

(** ** Statistics *)

Lemma doctor_rows_eq (s : store) :
  doctor_rows s
  = map (fun d => (d, bookings s d))
        (nodup str_eq_dec (map a_doctor (appointments s))).
Proof.
  unfold doctor_rows, group_by. rewrite map_map. reflexivity.
Qed.

Lemma doctor_text_not_NA (d : str) (n : nat) :
  d ++ lit " (" ++ str_of_nat n ++ lit " bookings)" <> lit "N/A".
Proof.
  intros H. apply (f_equal (fun l => last l 0%N)) in H.
  assert (E : d ++ lit " (" ++ str_of_nat n ++ lit " bookings)"
              = (d ++ lit " (" ++ str_of_nat n ++ lit " bookings")
                  ++ [41%N])
    by (rewrite <- !app_assoc; reflexivity).
  rewrite E, last_last in H. discriminate.
Qed.

Lemma popular_doctor_Some (s : store) (r : str * nat) :
  popular_doctor s = Some r ->
  In r (doctor_rows s) /\ forall r', In r' (doctor_rows s) -> snd r' <= snd r.
Proof.
  unfold popular_doctor. rewrite fetchone_limit. intros H.
  apply fetchone_order_by in H.
  - destruct H as [H1 H2]. split; [exact H1|].
    intros r' Hr'. apply Nat.leb_le. apply H2. exact Hr'.
  - intros x y E. apply Nat.leb_gt in E. apply Nat.leb_le. lia.
  - intros x y z H1 H2. apply Nat.leb_le in H1, H2. apply Nat.leb_le. lia.
Qed.

Lemma bookings_positive (s : store) (d : str) :
  0 < bookings s d <-> exists a, In a (appointments s) /\ a_doctor a = d.
Proof.
  unfold bookings. split.
  - intros H.
    destruct (filter (fun a => str_eqb (a_doctor a) d) (appointments s))
      as [|a l] eqn:F; [simpl in H; lia|].
    assert (I : In a (filter (fun a => str_eqb (a_doctor a) d)
                             (appointments s)))
      by (rewrite F; left; reflexivity).
    apply filter_In in I. destruct I as [I1 I2].
    exists a. split; [exact I1 | apply str_eqb_eq; exact I2].
  - intros [a [Ha E]].
    assert (I : In a (filter (fun a => str_eqb (a_doctor a) d)
                             (appointments s)))
      by (apply filter_In; split; [exact Ha | apply str_eqb_eq; exact E]).
    destruct (filter _ (appointments s)); [destruct I | simpl; lia].
Qed.

(** X5: the "Most Booked Doctor" cell is "N/A" exactly when the store has
    no appointment; otherwise it shows a doctor of some appointment with
    the number of that doctor's appointments, and no doctor has more. *)
Theorem popular_doctor_maximal (s : store) :
  (popular_doctor_cell (popular_doctor s) = CStr (lit "N/A")
   <-> appointments s = [])
  /\ (appointments s <> [] ->
      exists d, 0 < bookings s d
                /\ popular_doctor_cell (popular_doctor s)
                   = CStr (doctor_text s d)
                /\ forall d', bookings s d' <= bookings s d).
Proof.
  destruct (popular_doctor s) as [[d n]|] eqn:P.
  - apply popular_doctor_Some in P. destruct P as [P1 P2].
    rewrite doctor_rows_eq in P1, P2. apply in_map_iff in P1.
    destruct P1 as [d0 [E Hd]]. injection E as -> <-.
    apply nodup_In in Hd. apply in_map_iff in Hd.
    destruct Hd as [a [Ea Ha]].
    assert (Pos : 0 < bookings s d)
      by (apply bookings_positive; exists a; auto).
    assert (Max : forall d', bookings s d' <= bookings s d).
    { intros d'. destruct (Nat.eq_dec (bookings s d') 0) as [Z|Z]; [lia|].
      assert (Pd : 0 < bookings s d') by lia.
      apply bookings_positive in Pd. destruct Pd as [a' [Ha' Ea']].
      apply (P2 (d', bookings s d')). apply in_map_iff. exists d'.
      split; [reflexivity|]. apply nodup_In. rewrite <- Ea'.
      apply in_map. exact Ha'. }
    split.
    + split.
      * intros H. simpl in H. injection H as H.
        destruct (doctor_text_not_NA _ _ H).
      * intros H. rewrite H in Ha. destruct Ha.
    + intros _. exists d. repeat split; auto.
  - assert (E : appointments s = []).
    { unfold popular_doctor in P. rewrite fetchone_limit in P.
      unfold fetchone in P.
      destruct (order_by _ (doctor_rows s)) as [|r q] eqn:O; [|discriminate].
      apply order_by_nil in O. rewrite doctor_rows_eq in O.
      apply map_eq_nil in O.
      destruct (appointments s) as [|a l]; [reflexivity|].
      assert (I : In (a_doctor a)
                     (nodup str_eq_dec (map a_doctor (a :: l))))
        by (apply nodup_In; left; reflexivity).
      rewrite O in I. destruct I. }
    split.
    + split; [intros _; exact E | reflexivity].
    + intros NE. congruence.
Qed.

Lemma filter_length_le (A : Type) (p : A -> bool) (l : list A) :
  length (filter p l) <= length l.
Proof.
  induction l as [|x l IH]; simpl; [lia|]. destruct (p x); simpl; lia.
Qed.

(** X6: with unique user emails no count of Statistics exceeds the total
    appointment count: not today's count, not the count shown for the
    most booked doctor, and not the count of the most active user. *)
Theorem stats_within_total (s : store) (today : str) :
  NoDup (map u_email (users s)) ->
  today_count s today <= appt_count s
  /\ (forall d n, popular_doctor s = Some (d, n) -> n <= appt_count s)
  /\ (forall name email n, most_active s = Some (name, email, n) ->
                           n <= appt_count s).
Proof.
  intros N. split; [apply filter_length_le|]. split.
  - intros d n P. apply popular_doctor_Some in P. destruct P as [P _].
    rewrite doctor_rows_eq in P. apply in_map_iff in P.
    destruct P as [d0 [E _]]. injection E as _ <-. apply filter_length_le.
  - intros name email n M. apply most_active_Some in M. destruct M as [M _].
    rewrite (activity_rows_unique_emails s N) in M. apply in_map_iff in M.
    destruct M as [u [E _]]. injection E as _ _ <-. apply filter_length_le.
Qed.

Lemma stats_within_total_witness :
  NoDup (map u_email (users clinic))
  /\ today_count clinic (lit "2024-02-01") <= appt_count clinic
  /\ (forall d n, popular_doctor clinic = Some (d, n) ->
                  n <= appt_count clinic)
  /\ (forall name email n, most_active clinic = Some (name, email, n) ->
                           n <= appt_count clinic).
Proof.
  assert (H : NoDup (map u_email (users clinic)))
    by (repeat constructor; simpl; intuition discriminate).
  split; [exact H|].
  exact (@stats_within_total clinic (lit "2024-02-01") H).
Defined.

(** Two users under one email: the grouped count of Statistics counts the
    one appointment once for each of them. *)
Example shared_email_counts_twice :
  let twin := mkUser 3 (lit "Amy") (lit "a@x.com") None None [] in
  let s := mkStore [ann; twin] [appt1] in
  most_active s = Some (lit "Ann", lit "a@x.com", 2) /\ appt_count s = 1.
Proof. split; reflexivity. Qed.

(** ** Recent Activity *)

Lemma str_leb_total (a b : str) : str_leb a b = false -> str_leb b a = true.
Proof.
  unfold str_leb. rewrite (str_compare_antisym a b).
  destruct (str_compare a b); simpl; congruence.
Qed.

Lemma str_leb_trans (a b c : str) :
  str_leb a b = true -> str_leb b c = true -> str_leb a c = true.
Proof.
  unfold str_leb.
  destruct (str_compare a b) eqn:Eab; try discriminate; intros _.
  - apply str_compare_eq in Eab. subst. auto.
  - destruct (str_compare b c) eqn:Ebc; try discriminate; intros _.
    + apply str_compare_eq in Ebc. subst. rewrite Eab. reflexivity.
    + rewrite (str_compare_trans _ _ _ Eab Ebc). reflexivity.
Qed.

Lemma StronglySorted_app_inv (A : Type) (R : A -> A -> Prop)
      (l1 l2 : list A) :
  StronglySorted R (l1 ++ l2) ->
  StronglySorted R l1
  /\ forall x y, In x l1 -> In y l2 -> R x y.
Proof.
  induction l1 as [|a l1 IH]; simpl; intros S.
  - split; [constructor | intros x y []].
  - apply StronglySorted_inv in S. destruct S as [S F].
    destruct (IH S) as [S1 H]. rewrite Forall_app in F. destruct F as [F1 F2].
    split; [constructor; assumption|].
    intros x y [<-|Hx] Hy.
    + rewrite Forall_forall in F2. apply F2. exact Hy.
    + apply H; assumption.
Qed.

Section TopRows.

Variable A : Type.
Variable leb : A -> A -> bool.
Hypothesis leb_total : forall x y, leb x y = false -> leb y x = true.
Hypothesis leb_trans :
  forall x y z, leb x y = true -> leb y z = true -> leb x z = true.

(** The rows that ORDER BY ... LIMIT n keeps: at most [n], in order, and
    each before every row that is left out. *)
Lemma limit_order_by_top (n : nat) (l : list A) :
  length (limit n (order_by leb l)) = Nat.min n (length l)
  /\ StronglySorted (fun x y => leb x y = true) (limit n (order_by leb l))
  /\ (forall x, In x (limit n (order_by leb l)) -> In x l)
  /\ (forall x y, In x (limit n (order_by leb l)) -> In y l ->
                  ~ In y (limit n (order_by leb l)) -> leb x y = true).
Proof.
  pose proof (order_by_sorted leb leb_total leb_trans l) as S.
  rewrite <- (firstn_skipn n (order_by leb l)) in S.
  apply StronglySorted_app_inv in S. destruct S as [S1 S2].
  unfold limit. split.
  - rewrite length_firstn, order_by_length. reflexivity.
  - split; [exact S1|]. split.
    + intros x Hx. apply (order_by_In leb). apply (limit_In n). exact Hx.
    + intros x y Hx Hy Hn. apply S2; [exact Hx|].
      apply (order_by_In leb) in Hy.
      rewrite <- (firstn_skipn n (order_by leb l)) in Hy.
      apply in_app_or in Hy. destruct Hy; [contradiction | assumption].
Qed.

End TopRows.

(** X7: the "Recent Signups" section shows the 5 users created last, or
    all users when there are fewer: its users are users of the store, in
    non-increasing order of creation time, and no user that is left out
    was created after a user that is shown. *)
Theorem recent_users_newest (s : store) :
  length (recent_users s) = Nat.min 5 (user_count s)
  /\ StronglySorted
       (fun x y => str_leb (u_created_at y) (u_created_at x) = true)
       (recent_users s)
  /\ (forall x, In x (recent_users s) -> In x (users s))
  /\ (forall x y, In x (recent_users s) -> In y (users s) ->
                  ~ In y (recent_users s) ->
                  str_leb (u_created_at y) (u_created_at x) = true).
Proof.
  unfold recent_users, user_count.
  apply (@limit_order_by_top user
           (fun x y => str_leb (u_created_at y) (u_created_at x))).
  - intros x y. apply str_leb_total.
  - intros x y z H1 H2. exact (str_leb_trans _ _ _ H2 H1).
Qed.

(** X8: the "Recent Appointments" section shows at most 5 rows; each is
    an appointment of the store with a user of the store that has the
    appointment's email; the rows are in non-increasing order of booking
    time, and no matching pair that is left out was booked after one that
    is shown. *)
Theorem recent_appts_newest (s : store) :
  length (recent_appts s) <= 5
  /\ StronglySorted
       (fun x y => str_leb (a_booked_at (snd y)) (a_booked_at (snd x)) = true)
       (recent_appts s)
  /\ (forall u a, In (u, a) (recent_appts s) ->
                  In u (users s) /\ In a (appointments s)
                  /\ a_user_email a = u_email u)
  /\ (forall x u a, In x (recent_appts s) ->
                    In u (users s) -> In a (appointments s) ->
                    a_user_email a = u_email u ->
                    ~ In (u, a) (recent_appts s) ->
                    str_leb (a_booked_at a) (a_booked_at (snd x)) = true).
Proof.
  unfold recent_appts.
  destruct (@limit_order_by_top (user * appointment)
              (fun x y => str_leb (a_booked_at (snd y)) (a_booked_at (snd x)))
              (fun x y => @str_leb_total _ _)
              (fun x y z H1 H2 => str_leb_trans _ _ _ H2 H1)
              5 (flat_map (join_users (users s)) (appointments s)))
    as [L [S [I T]]].
  split; [rewrite L; apply Nat.le_min_l|].
  split; [exact S|]. split.
  - intros u a H. apply I in H. apply in_flat_map in H.
    destruct H as [a' [Ha' H]]. unfold join_users in H.
    apply in_map_iff in H. destruct H as [u' [E Hu']].
    injection E as -> ->. apply filter_In in Hu'. destruct Hu' as [Hu' O].
    apply owns_eq in O. auto.
  - intros x u a Hx Hu Ha E Hn.
    apply (T x (u, a)); [exact Hx | | exact Hn].
    apply in_flat_map. exists a. split; [exact Ha|].
    unfold join_users. apply in_map_iff. exists u.
    split; [reflexivity|]. apply filter_In.
    split; [exact Hu | apply owns_eq; exact E].
Qed.

(** Seven users: the two oldest are not among the recent signups. *)
Example recent_users_limit :
  let mk i d := mkUser i (lit "U") (str_of_Z i) None None (lit d) in
  let s := mkStore [mk 1%Z "2024-01-03"%string; mk 2%Z "2024-01-07"%string;
                    mk 3%Z "2024-01-01"%string; mk 4%Z "2024-01-05"%string;
                    mk 5%Z "2024-01-02"%string; mk 6%Z "2024-01-06"%string;
                    mk 7%Z "2024-01-04"%string] [] in
  map u_id (recent_users s) = [2; 6; 4; 7; 1]%Z.
Proof. reflexivity. Qed.

(** ** Search User by Email *)



Example search_bob :
  search_user clinic (lit "b@x.com")
  = user_details bob
    ++ [Print (nl ++ 128197%N :: lit " Appointments (2):");
        Table Simple [lit "ID"; lit "Doctor"; lit "Date"; lit "Time"]
              [[CInt 2; CStr (lit "Dr. Shah"); CStr (lit "2024-02-01");
                CStr (lit "11:00")];
               [CInt 4; CStr (lit "Dr. Rao"); CStr (lit "2024-02-03");
                CStr (lit "09:30")]]].
Proof. reflexivity. Qed.

(** X10: with unique user emails, searching the email of a stored user
    finds that user: the output starts with the details of that very
    user, and the number of appointments listed is the number of
    appointments counted for the user in Statistics. *)
Theorem search_finds_stored_user (s : store) (u : user) :
  NoDup (map u_email (users s)) -> In u (users s) ->
  find_user s (u_email u) = Some u
  /\ (exists tail, search_user s (u_email u) = user_details u ++ tail)
  /\ length (appointments_of s (u_email u)) = user_appt_count s u.
Proof.
  intros N Hu.
  assert (F : find_user s (u_email u) = Some u).
  { unfold find_user. rewrite (@unique_email_filter (users s) u N Hu).
    reflexivity. }
  split; [exact F|]. split.
  - unfold search_user. rewrite F. eexists. reflexivity.
  - unfold appointments_of, user_appt_count. rewrite order_by_length.
    reflexivity.
Qed.

Lemma search_finds_stored_user_witness :
  NoDup (map u_email (users clinic)) /\ In bob (users clinic)
  /\ find_user clinic (u_email bob) = Some bob
  /\ (exists tail,
         search_user clinic (u_email bob) = user_details bob ++ tail)
  /\ length (appointments_of clinic (u_email bob))
     = user_appt_count clinic bob.
Proof.
  assert (H1 : NoDup (map u_email (users clinic)))
    by (repeat constructor; simpl; intuition discriminate).
  assert (H2 : In bob (users clinic)) by (right; left; reflexivity).
  split; [exact H1|]. split; [exact H2|].
  exact (@search_finds_stored_user clinic bob H1 H2).
Defined.

(** Without unique emails the search shows the first stored user with
    the email. *)
Example search_shared_email :
  let twin := mkUser 3 (lit "Amy") (lit "a@x.com") None None [] in
  find_user (mkStore [ann; twin] []) (lit "a@x.com") = Some ann.
Proof. reflexivity. Qed.

(* ================================================================== *)
(** * Further properties of the interactive program *)

(** One round of the menu, with the local steps of the loop named. *)
Lemma interactive_menu_eq (b : tabulate_binding) (d : database)
      (today : str) (inputs : list input_event) :
  interactive_menu b d today inputs
  = let after := after_with (interactive_menu b d today) in
    emit (menu_text ++ [Prompt (nl ++ lit "  Enter choice (1-6): ")])
      match inputs with
      | [] => ([], Some eof)
      | Interrupt :: _ => ([], Some KeyboardInterrupt)
      | Line l :: rest =>
          let choice := strip l in
          if str_eqb choice (lit "1") then
            emit (print_section "ALL USERS")
                 (after (call_view_users b d) rest)
          else if str_eqb choice (lit "2") then
            emit (print_section "ALL APPOINTMENTS")
                 (after (call_view_appointments b d) rest)
          else if str_eqb choice (lit "3") then
            emit (print_section "DATABASE STATISTICS")
                 (after (call_view_stats b d today) rest)
          else if str_eqb choice (lit "4") then
            emit (print_section "RECENT ACTIVITY")
                 (after (call_view_recent_activity b d) rest)
          else if str_eqb choice (lit "5") then
            emit [Prompt (nl ++ lit "  Enter email: ")]
              match rest with
              | Line e :: rest2 =>
                  after (call_search_user b d (strip e)) rest2
              | Interrupt :: _ => ([], Some KeyboardInterrupt)
              | [] => ([], Some eof)
              end
          else if str_eqb choice (lit "6") then
            ([Print goodbye], None)
          else
            after ([Print (nl ++ lit "  " ++ 10060%N
                              :: lit " Invalid choice. Please try again.")],
                   None) rest
      end.
Proof.
  destruct inputs as [|[l|] rest]; reflexivity.
Qed.

(** ** Calls of the reports *)



Lemma printing_module_no_table (outs : list output) :
  Forall not_table (fst (printing TabulateModule outs)).
Proof.
  induction outs as [|o outs IH]; [constructor|].
  destruct o; simpl; repeat constructor; auto.
Qed.





(** ** How a session ends *)







(** X13: the program asks for input exactly when the path could be
    opened or created; when it could not, the whole output is the
    "database not found" message. *)
Theorem prompts_iff_openable (b : tabulate_binding) (e : environment)
        (today : str) (inputs : list input_event) :
  ((exists p, In (Prompt p) (main b e today inputs)) <-> openable e = true)
  /\ (openable e = false -> main b e today inputs = database_not_found).
Proof.
  assert (U : openable e = false ->
              main b e today inputs = database_not_found).
  { intros H. unfold main, sqlite3_connect. rewrite H. reflexivity. }
  split; [|exact U]. split.
  - intros [p H]. destruct (openable e) eqn:O; [reflexivity|].
    rewrite U in H by reflexivity.
    unfold database_not_found in H. simpl in H.
    destruct H as [H|[H|[H|[]]]]; discriminate.
  - intros O. unfold main, sqlite3_connect. rewrite O.
    set (d := match file e with Absent => Tables None None | Present d => d end).
    destruct (interactive_menu_prints_menu b d today inputs) as [rest E].
    exists (nl ++ lit "  Enter choice (1-6): ").
    rewrite E. apply in_or_app. left. apply in_or_app. right.
    left. reflexivity.
Qed.

(** ** Whitespace around a typed line *)

Lemma lstrip_length (s : str) : length (lstrip s) <= length s.
Proof.
  induction s as [|c s IH]; simpl; [lia|].
  destruct (is_space c); simpl; lia.
Qed.

Lemma lstrip_idem (s : str) : lstrip (lstrip s) = lstrip s.
Proof.
  induction s as [|c s IH]; simpl; [reflexivity|].
  destruct (is_space c) eqn:E; [exact IH|]. simpl. rewrite E. reflexivity.
Qed.

Lemma lstrip_split (s : str) : exists sp, s = sp ++ lstrip s.
Proof.
  induction s as [|c s [sp IH]]; simpl.
  - exists []. reflexivity.
  - destruct (is_space c).
    + exists (c :: sp). simpl. f_equal. exact IH.
    + exists []. reflexivity.
Qed.

Lemma lstrip_cons_fixed (c : N) (s : str) :
  lstrip (c :: s) = c :: s -> is_space c = false.
Proof.
  simpl. destruct (is_space c); [|reflexivity].
  intros H. pose proof (lstrip_length s) as L. rewrite H in L.
  simpl in L. lia.
Qed.

Lemma lstrip_rev_fixed (t : str) :
  lstrip t = t -> lstrip (rev (lstrip (rev t))) = rev (lstrip (rev t)).
Proof.
  intros H. destruct (lstrip_split (rev t)) as [sp E].
  assert (T : t = rev (lstrip (rev t)) ++ rev sp).
  { rewrite <- rev_app_distr, <- E, rev_involutive. reflexivity. }
  destruct (rev (lstrip (rev t))) as [|c w]; [reflexivity|].
  rewrite T in H. simpl in H. apply lstrip_cons_fixed in H.
  simpl. rewrite H. reflexivity.
Qed.

Lemma strip_idem (s : str) : strip (strip s) = strip s.
Proof.
  unfold strip.
  rewrite (lstrip_rev_fixed (lstrip_idem s)).
  rewrite rev_involutive, lstrip_idem. reflexivity.
Qed.

Lemma pause_with_strip (k : list input_event -> run)
      (rest : list input_event) :
  (forall x rest', rest = Line x :: rest' ->
                   k (map strip_event rest') = k rest') ->
  pause_with k (map strip_event rest) = pause_with k rest.
Proof.
  intros K. unfold pause_with. destruct rest as [|[x|] rest']; simpl; auto.
  rewrite (K x rest' eq_refl). reflexivity.
Qed.

Lemma after_with_strip (k : list input_event -> run) (r : run)
      (rest : list input_event) :
  (forall x rest', rest = Line x :: rest' ->
                   k (map strip_event rest') = k rest') ->
  after_with k r (map strip_event rest) = after_with k r rest.
Proof.
  intros K. unfold after_with. rewrite (pause_with_strip _ K). reflexivity.
Qed.

Lemma menu_strip_bounded (b : tabulate_binding) (d : database) (today : str)
      (n : nat) :
  forall inputs,
    length inputs <= n ->
    interactive_menu b d today (map strip_event inputs)
    = interactive_menu b d today inputs.
Proof.
  induction n as [|n IH]; intros inputs L;
    rewrite (interactive_menu_eq b d today inputs),
            (interactive_menu_eq b d today (map strip_event inputs));
    destruct inputs as [|[l|] rest]; try (simpl in L; lia);
    try reflexivity.
  assert (K : forall (tl : list input_event),
             length tl <= length rest ->
             forall x rest', tl = Line x :: rest' ->
               interactive_menu b d today (map strip_event rest')
               = interactive_menu b d today rest').
  { intros tl Lt x rest' ->. apply IH. simpl in L, Lt. lia. }
  cbn [map strip_event]. cbv zeta. rewrite strip_idem. f_equal.
  repeat match goal with
         | |- context [if ?c then _ else _] => destruct c eqn:?
         end;
    try reflexivity;
    try (f_equal; apply after_with_strip; apply K; lia).
  - f_equal. destruct rest as [|[e|] rest2]; try reflexivity.
    cbn [map strip_event]. rewrite strip_idem.
    apply after_with_strip. apply K. simpl. lia.
  - apply after_with_strip. apply K. lia.
Qed.

(** X14: whitespace around the typed lines does not matter: a session
    runs the same when every line of the input is replaced by the line
    without its leading and trailing whitespace. *)
Theorem menu_ignores_whitespace (b : tabulate_binding) (d : database)
        (today : str) (inputs : list input_event) :
  interactive_menu b d today (map strip_event inputs)
  = interactive_menu b d today inputs.
Proof. apply menu_strip_bounded with (n := length inputs). lia. Qed.

(** ** The rounds of the menu *)

Lemma store_eta (s : store) : mkStore (users s) (appointments s) = s.
Proof. destruct s; reflexivity. Qed.







(** X16: on a database file without tables, as the one the program has
    just created for an absent store, the choice of a report prints the
    section title and then the "database not found" message, and the
    program ends without reading further input. *)
Theorem report_on_missing_tables (b : tabulate_binding) (today l : str)
        (rest : list input_event) :
  let out title :=
    menu_text ++ [Prompt (nl ++ lit "  Enter choice (1-6): ")]
              ++ print_section title ++ database_not_found in
  let session := main b (mkEnv Absent true) today (Line l :: rest) in
  (strip l = lit "1" -> session = out "ALL USERS"%string)
  /\ (strip l = lit "2" -> session = out "ALL APPOINTMENTS"%string)
  /\ (strip l = lit "3" -> session = out "DATABASE STATISTICS"%string)
  /\ (strip l = lit "4" -> session = out "RECENT ACTIVITY"%string).
Proof.
  intros out session. unfold out, session, main.
  cbn [sqlite3_connect openable file].
  repeat split; intros H; rewrite interactive_menu_eq; cbv zeta;
    rewrite H; simpl str_eqb; cbv iota;
    unfold after_with, call_view_users, call_view_appointments,
      call_view_stats, call_view_recent_activity, on_both_tables;
    cbn [fst snd emit handler];
    rewrite <- !app_assoc; reflexivity.
Qed.

(** ** The program run as a script *)

Lemma no_table_emit (o : list output) (r : run) :
  Forall not_table o -> Forall not_table (fst r) ->
  Forall not_table (fst (emit o r)).
Proof. intros H1 H2. unfold emit. simpl. apply Forall_app. auto. Qed.

Lemma no_table_after (k : list input_event -> run) (r : run)
      (rest : list input_event) :
  Forall not_table (fst r) ->
  (forall x rest', rest = Line x :: rest' -> Forall not_table (fst (k rest'))) ->
  Forall not_table (fst (after_with k r rest)).
Proof.
  intros R K. unfold after_with. destruct (snd r); [exact R|].
  apply no_table_emit; [exact R|]. unfold pause_with.
  apply no_table_emit; [repeat constructor|].
  destruct rest as [|[x|] rest']; try constructor.
  apply (K x). reflexivity.
Qed.

Lemma on_both_tables_module_no_table (d : database)
      (f : store -> list output) :
  Forall not_table (fst (on_both_tables TabulateModule d f)).
Proof.
  unfold on_both_tables.
  destruct d as [|[us|] [appts|]]; try constructor.
  apply printing_module_no_table.
Qed.

Lemma call_view_users_module_no_table (d : database) :
  Forall not_table (fst (call_view_users TabulateModule d)).
Proof.
  unfold call_view_users.
  destruct d as [|[us|] appts]; try constructor.
  apply printing_module_no_table.
Qed.

Lemma call_search_user_module_no_table (d : database) (email : str) :
  Forall not_table (fst (call_search_user TabulateModule d email)).
Proof.
  unfold call_search_user.
  destruct d as [|[us|] [appts|]]; try constructor.
  - apply printing_module_no_table.
  - destruct (find_user (mkStore us []) email); repeat constructor.
Qed.

Lemma menu_text_no_table :
  Forall not_table
         (menu_text ++ [Prompt (nl ++ lit "  Enter choice (1-6): ")]).
Proof. repeat constructor. Qed.

Lemma script_menu_no_table_bounded (d : database) (today : str) (n : nat) :
  forall inputs,
    length inputs <= n ->
    Forall not_table (fst (interactive_menu TabulateModule d today inputs)).
Proof.
  induction n as [|n IH]; intros inputs L;
    rewrite interactive_menu_eq; cbv zeta;
    (apply no_table_emit; [apply menu_text_no_table|]);
    destruct inputs as [|[l|] rest]; try (simpl in L; lia);
    try constructor.
  assert (K : forall (tl : list input_event),
             length tl <= length rest ->
             forall x rest', tl = Line x :: rest' ->
               Forall not_table
                      (fst (interactive_menu TabulateModule d today rest'))).
  { intros tl Lt x rest' ->. apply IH. simpl in L, Lt. lia. }
  repeat match goal with
         | |- context [if ?c then _ else _] => destruct c eqn:?
         end.
  - apply no_table_emit; [repeat constructor|].
    apply no_table_after;
      [apply call_view_users_module_no_table | apply K; lia].
  - apply no_table_emit; [repeat constructor|].
    apply no_table_after;
      [apply on_both_tables_module_no_table | apply K; lia].
  - apply no_table_emit; [repeat constructor|].
    apply no_table_after;
      [apply on_both_tables_module_no_table | apply K; lia].
  - apply no_table_emit; [repeat constructor|].
    apply no_table_after;
      [apply on_both_tables_module_no_table | apply K; lia].
  - apply no_table_emit; [repeat constructor|].
    destruct rest as [|[e|] rest2]; try constructor.
    apply no_table_after;
      [apply call_search_user_module_no_table | apply K; simpl; lia].
  - repeat constructor.
  - apply no_table_after; [repeat constructor | apply K; lia].
Qed.

Lemma appointments_query_nil (s : store) :
  appointments_query s = [] -> appointments s = [].
Proof.
  unfold appointments_query. intros H. apply order_by_nil in H.
  destruct (appointments s) as [|a l]; [reflexivity|].
  simpl in H. apply app_eq_nil in H. destruct H as [H _].
  unfold left_join_users in H.
  destruct (filter (fun u => owns u a) (users s)); discriminate.
Qed.

(** X17: run as a script, the program never prints a table, whatever the
    environment and the input.  On a database with both tables,
    Statistics always ends the session with the error message of the
    call of [tabulate], and so do List Users when there is a user and
    List Appointments when there is an appointment. *)
Theorem script_never_prints_table (e : environment) (today : str)
        (inputs : list input_event) :
  (forall fmt headers rows,
      ~ In (Table fmt headers rows) (script e today inputs))
  /\ (forall s l rest,
         let session := script (mkEnv (Holds s) true) today (Line l :: rest) in
         let failed title :=
           menu_text ++ [Prompt (nl ++ lit "  Enter choice (1-6): ")]
             ++ print_section title
             ++ [Print (nl ++ 10060%N
                           :: lit " Error: 'module' object is not callable"
                           ++ nl)] in
         (strip l = lit "3" -> session = failed "DATABASE STATISTICS"%string)
         /\ (strip l = lit "1" -> users s <> [] ->
             session = failed "ALL USERS"%string)
         /\ (strip l = lit "2" -> appointments s <> [] ->
             session = failed "ALL APPOINTMENTS"%string)).
Proof.
  split.
  - intros fmt headers rows H.
    assert (F : Forall not_table (script e today inputs)).
    { unfold script, main. destruct (sqlite3_connect e) as [err|d].
      - destruct err; repeat constructor.
      - apply Forall_app. split.
        + apply script_menu_no_table_bounded with (n := length inputs). lia.
        + destruct (snd (interactive_menu TabulateModule d today inputs))
            as [[| |msg]|]; repeat constructor. }
    rewrite Forall_forall in F. exact (F _ H).
  - intros s l rest session failed. unfold session, failed, script, main, Holds.
    cbn [sqlite3_connect openable file].
    repeat split; intros H; try intros NE;
      rewrite interactive_menu_eq; cbv zeta;
      rewrite H; simpl str_eqb; cbv iota.
    + unfold call_view_stats, on_both_tables, view_stats.
      cbn [printing after_with fst snd emit handler not_callable].
      rewrite <- !app_assoc. reflexivity.
    + unfold call_view_users, view_users. cbn [users].
      destruct (users s) as [|u us]; [congruence|].
      cbn [printing after_with fst snd emit handler not_callable].
      rewrite <- !app_assoc. reflexivity.
    + unfold call_view_appointments, on_both_tables, view_appointments.
      rewrite store_eta.
      destruct (appointments_query s) as [|r q] eqn:Q;
        [apply appointments_query_nil in Q; congruence|].
      cbn [printing after_with fst snd emit handler not_callable].
      rewrite <- !app_assoc. reflexivity.
Qed.
